(** * Guam legislature scraper ([scrapers/gu/bills.py]): a shallow embedding

    The scraper cuts an index page into per-record fragments with regular
    expressions, parses each fragment into a bill record, and reads dates and
    a committee from the text of a companion PDF.  This development embeds
    the string operations, the regular expressions, the two detail
    extractors, the two block parsers and the orchestrator, and states the
    behaviour of each as theorems.

    Conventions.
    - A Python [str] is a list of Unicode code points ([list N]).
    - A Python exception is a value of [exn]; code that may raise returns
      [result].
    - [lxml], the PDF converter, [dateutil], [str.title] and the filing of
      document links by [openstates] are libraries outside the scraper: the
      parsed view of a fragment is part of the input, and the others are
      parameters.
    - [self._get_details], which both parsers call, is not a method of the
      class: [_get_details] raises [AttributeError]. *)

From Stdlib Require Import NArith ZArith Lia.
From stdpp Require Import base option list strings gmap.

Local Open Scope N_scope.
Local Open Scope nat_scope.

(** ** Python strings *)

Module PyStr.

Abbreviation pystr := (list N).

(** A string literal as its code points. *)
Definition str (s : string) : pystr :=
  List.map Ascii.N_of_ascii (String.list_ascii_of_string s).

(** [c.isspace()]: the code points Python treats as whitespace, which are
    also the ones [\s] matches in a [str] pattern. *)
Definition isspace (c : N) : bool :=
  ((9 <=? c) && (c <=? 13) || (28 <=? c) && (c <=? 32) || (c =? 133)
   || (c =? 160) || (c =? 5760) || (8192 <=? c) && (c <=? 8202)
   || (c =? 8232) || (c =? 8233) || (c =? 8239) || (c =? 8287)
   || (c =? 12288))%N.

Definition nonspace (c : N) : bool := negb (isspace c).

Definition eqc (a b : N) : bool := (a =? b)%N.

(** [s.startswith(p)] *)
Fixpoint startswith (p s : pystr) : bool :=
  match p, s with
  | [], _ => true
  | _ :: _, [] => false
  | a :: p', b :: s' => eqc a b && startswith p' s'
  end.

(** [needle in s] *)
Fixpoint isin (needle s : pystr) : bool :=
  startswith needle s ||
  match s with
  | [] => false
  | _ :: s' => isin needle s'
  end.

(** [s.removeprefix(p)] *)
Definition removeprefix (p s : pystr) : pystr :=
  if startswith p s then drop (length p) s else s.

(** [s.lstrip()], [s.rstrip()], [s.strip()] and their one-argument forms,
    which strip the characters of a set. *)
Fixpoint lstrip_by (f : N -> bool) (s : pystr) : pystr :=
  match s with
  | c :: s' => if f c then lstrip_by f s' else s
  | [] => []
  end.

Definition rstrip_by (f : N -> bool) (s : pystr) : pystr :=
  rev (lstrip_by f (rev s)).

Definition strip_by (f : N -> bool) (s : pystr) : pystr :=
  rstrip_by f (lstrip_by f s).

Definition strip (s : pystr) : pystr := strip_by isspace s.

Definition strip_chars (chars s : pystr) : pystr :=
  strip_by (fun c => existsb (eqc c) chars) s.

(** [s.split()]: the maximal runs of non-whitespace characters. *)
Fixpoint split_ws_go (s cur : pystr) : list pystr :=
  match s with
  | [] => match cur with [] => [] | _ => [rev cur] end
  | c :: s' =>
      if isspace c
      then match cur with
           | [] => split_ws_go s' []
           | _ => rev cur :: split_ws_go s' []
           end
      else split_ws_go s' (c :: cur)
  end.

Definition split_ws (s : pystr) : list pystr := split_ws_go s [].

(** [s.split(sep)] for a non-empty [sep]: scan from the left, cut at every
    occurrence of [sep] and resume after it.  The fuel bounds the number of
    scan steps; [length s] is always enough. *)
Fixpoint split_go (fuel : nat) (sep s cur : pystr) : list pystr :=
  match fuel with
  | 0 => [rev cur ++ s]
  | S n =>
      match s with
      | [] => [rev cur]
      | c :: s' =>
          if startswith sep s
          then rev cur :: split_go n sep (drop (length sep) s) []
          else split_go n sep s' (c :: cur)
      end
  end.

Definition split (sep s : pystr) : list pystr :=
  split_go (length s) sep s [].

(** [sep.join(parts)] *)
Fixpoint join (sep : pystr) (parts : list pystr) : pystr :=
  match parts with
  | [] => []
  | [p] => p
  | p :: ps => p ++ sep ++ join sep ps
  end.

(** [s.replace(old, new)] for a non-empty [old]. *)
Definition replace (old new s : pystr) : pystr := join new (split old s).

End PyStr.
Export PyStr.

(** ** Exceptions *)

Inductive exn : Type :=
| IndexError
| KeyError
| AttributeError
| ValueError.

Inductive result (A : Type) : Type :=
| Ok (a : A)
| Raise (e : exn).
Arguments Ok {A} a.
Arguments Raise {A} e.

Definition bind {A B} (m : result A) (f : A -> result B) : result B :=
  match m with
  | Ok a => f a
  | Raise e => Raise e
  end.

Notation "'let*' x ':=' m 'in' k" := (bind m (fun x => k))
  (at level 10, x name, m at level 100, k at level 200).

(** [l[i]] with Python's negative indices. *)
Definition getitem {A} (l : list A) (i : Z) : result A :=
  let j := if (i <? 0)%Z then (Z.of_nat (length l) + i)%Z else i in
  if (j <? 0)%Z then Raise IndexError
  else match l !! Z.to_nat j with
       | Some a => Ok a
       | None => Raise IndexError
       end.

(** [l[1:]] *)
Definition tail_from1 {A} (l : list A) : list A := drop 1 l.

(** ** Regular expressions

    The patterns of the scraper use literals, character classes, [^],
    concatenation, one capture group each, and quantifiers applied to a
    single character class.  [rmatch] is a backtracking matcher with
    Python's priorities: a greedy quantifier tries the longer match first, a
    lazy one the shorter. *)

Module Re.

Inductive regex : Type :=
| Cls (p : N -> bool)
| Bol
| Cat (r1 r2 : regex)
| Rep (p : N -> bool) (lo : nat) (hi : option nat) (greedy : bool)
| Grp (r : regex).

Fixpoint lit (s : pystr) : regex :=
  match s with
  | [] => Rep (fun _ => false) 0 (Some 0) true
  | [c] => Cls (eqc c)
  | c :: s' => Cat (Cls (eqc c)) (lit s')
  end.

Definition in_range (a b c : N) : bool := ((a <=? c) && (c <=? b))%N.

Section Matcher.
Context {R : Type}.

(** A continuation receives whether the position is still the start of the
    text, the rest of the text and the text of the group. *)
Definition cont : Type := bool -> pystr -> option pystr -> option R.

Definition orelse (a : option R) (b : option R) : option R :=
  match a with
  | Some r => Some r
  | None => b
  end.

Fixpoint rep (greedy : bool) (p : N -> bool) (lo : nat) (hi : option nat)
    (bol : bool) (s : pystr) (k : bool -> pystr -> option R) : option R :=
  let more :=
    match s with
    | c :: s' =>
        match hi with
        | Some 0 => None
        | _ => if p c
               then rep greedy p (pred lo) (Nat.pred <$> hi) false s' k
               else None
        end
    | [] => None
    end in
  let stop := match lo with 0 => k bol s | S _ => None end in
  if greedy then orelse more stop else orelse stop more.

Fixpoint rmatch (r : regex) (bol : bool) (s : pystr) (cap : option pystr)
    (k : cont) : option R :=
  match r with
  | Cls p =>
      match s with
      | c :: s' => if p c then k false s' cap else None
      | [] => None
      end
  | Bol => if bol then k bol s cap else None
  | Cat r1 r2 => rmatch r1 bol s cap (fun b s' cap' => rmatch r2 b s' cap' k)
  | Rep p lo hi greedy => rep greedy p lo hi bol s (fun b s' => k b s' cap)
  | Grp r1 =>
      rmatch r1 bol s cap
        (fun b s' _ => k b s' (Some (take (length s - length s') s)))
  end.

End Matcher.

(** A match: the matched text, the text after it, the group. *)
Record rmatched : Type := MkMatch {
  m_text : pystr;
  m_rest : pystr;
  m_group : option pystr
}.

(** [pattern.match] at one position. *)
Definition match_at (r : regex) (bol : bool) (s : pystr) : option rmatched :=
  rmatch r bol s None
    (fun _ s' cap => Some (MkMatch (take (length s - length s') s) s' cap)).

(** [pattern.search(s)]: the leftmost match. *)
Fixpoint search_go (r : regex) (bol : bool) (s : pystr) : option rmatched :=
  match match_at r bol s with
  | Some m => Some m
  | None =>
      match s with
      | [] => None
      | _ :: s' => search_go r false s'
      end
  end.

Definition search (r : regex) (s : pystr) : option rmatched :=
  search_go r true s.

(** [m.group(1)]; a group that took no part in the match reads as [None]. *)
Definition group1 (m : rmatched) : option pystr := m_group m.

(** [pattern.findall(s)] for a pattern with one group: the group of every
    match, scanning on after each match.  After an empty match the scan
    moves one character on. *)
Fixpoint findall_go (fuel : nat) (r : regex) (bol : bool) (s : pystr)
    : list pystr :=
  match fuel with
  | 0 => []
  | S n =>
      match match_at r bol s with
      | Some m =>
          default [] (m_group m) ::
          match m_text m, s with
          | [], [] => []
          | [], _ :: s' => findall_go n r false s'
          | _ :: _, _ => findall_go n r false (m_rest m)
          end
      | None =>
          match s with
          | [] => []
          | _ :: s' => findall_go n r false s'
          end
      end
  end.

Definition findall (r : regex) (s : pystr) : list pystr :=
  findall_go (S (length s)) r true s.

End Re.
Export Re.

(** ** The pattern library of [GUBillScraper] *)

Module Patterns.

Definition any_char (_ : N) : bool := true.
Definition digit : N -> bool := in_range 48 57.
Definition is_one_of (chars : pystr) (c : N) : bool := existsb (eqc c) chars.

(** The left-aligned paragraph tag, [<p align=?left?>] with the double
    quote (code point 34) at each [?]. *)
Definition p_align_left : pystr :=
  str "<p align=" ++ [34%N] ++ str "left" ++ [34%N] ++ str ">".

(** [bill_match_re]: a group of [<p>], any characters (lazy, newlines
    included), [<br>]. *)
Definition bill_match_re : regex :=
  Grp (Cat (lit (str "<p>"))
      (Cat (Rep any_char 0 None false) (lit (str "<br>")))).

(** [res_match_re]: a group of the left-aligned paragraph tag, any
    characters (lazy, newlines included), [<br>]. *)
Definition res_match_re : regex :=
  Grp (Cat (lit p_align_left)
      (Cat (Rep any_char 0 None false) (lit (str "<br>")))).

(** [sponsors_match_re]: the text [Sponsor(s) -], a greedy group of any
    characters (newlines included), [<p>]. *)
Definition sponsors_match_re : regex :=
  Cat (lit (str "Sponsor(s) -"))
      (Cat (Grp (Rep any_char 0 None true)) (lit (str "<p>"))).

(** [desc_match_re]: start of text, at most one whitespace character,
    [<p>], a lazy group of any characters (newlines included), [<li>]. *)
Definition desc_match_re : regex :=
  Cat Bol (Cat (Rep isspace 0 (Some 1) true)
          (Cat (lit (str "<p>"))
          (Cat (Grp (Rep any_char 0 None false)) (lit (str "<li>"))))).

(** [res_desc_match_re]: the left-aligned paragraph tag, then a greedy
    group of one or more characters other than [<] and [>]. *)
Definition res_desc_match_re : regex :=
  Cat (lit p_align_left)
      (Grp (Rep (fun c => negb (is_one_of (str "<>") c)) 1 None true)).

Definition filtered_details : list pystr :=
  [str "BILL HISTORY"; str "Bill HISTORY"; str "CLERKS OFFICE"; str "Page 1"].

(** [[0-9]{1,2}/[0-9]{1,2}/[0-9]{2,4}], the common head of the two date
    patterns. *)
Definition date_body : regex :=
  Cat (Rep digit 1 (Some 2) true)
 (Cat (lit (str "/"))
 (Cat (Rep digit 1 (Some 2) true)
 (Cat (lit (str "/"))
      (Rep digit 2 (Some 4) true)))).

(** [date_re]: a group of [date_body]. *)
Definition date_re : regex := Grp date_body.

(** [date_time_re]: a group of [date_body], [\s?], [\n?], [[0-9]{1,2}],
    [:], [[0-9]{2}], a space, [[apAP]], [\.?], [[mM]], [\.?]. *)
Definition date_time_re : regex :=
  Grp (Cat date_body
      (Cat (Rep isspace 0 (Some 1) true)
      (Cat (Rep (eqc 10) 0 (Some 1) true)
      (Cat (Rep digit 1 (Some 2) true)
      (Cat (lit (str ":"))
      (Cat (Rep digit 2 (Some 2) true)
      (Cat (lit (str " "))
      (Cat (Cls (is_one_of (str "apAP")))
      (Cat (Rep (eqc 46) 0 (Some 1) true)
      (Cat (Cls (is_one_of (str "mM")))
           (Rep (eqc 46) 0 (Some 1) true))))))))))).

(** [committee_re]: a group of [[cC]], [ommittee on ] and one or more
    letters, commas, spaces or newlines. *)
Definition committee_class (c : N) : bool :=
  in_range 97 122 c || in_range 65 90 c || is_one_of [44; 32; 10]%N c.

Definition committee_re : regex :=
  Grp (Cat (Cls (is_one_of (str "cC")))
      (Cat (lit (str "ommittee on "))
           (Rep committee_class 1 None true))).

End Patterns.
Export Patterns.

(** ** The record built by the parsers

    [openstates.scrape.Bill] is the sink of the scraper.  [add_source],
    [add_action] and [add_sponsorship] append to the lists of the record;
    what [add_document_link] does with a link is left to the library. *)

Section Scraper.

(** A timezone-aware [datetime]. *)
Variable datetime : Type.

(** A value stored in a details dictionary or passed as the date of an
    action. *)
Inductive pyval : Type :=
| PNone
| PDate (d : datetime)
| PStr (s : pystr).

(** Python's truth value: [None] and the empty string are false, a
    [datetime] is always true. *)
Definition truthy (v : pyval) : bool :=
  match v with
  | PNone => false
  | PDate _ => true
  | PStr s => match s with [] => false | _ => true end
  end.

Record action : Type := MkAction {
  a_description : pystr;
  a_date : pyval;
  a_organization : pyval
}.

Record sponsorship : Type := MkSponsorship {
  sp_name : pystr;
  sp_entity_type : pystr;
  sp_classification : pystr;
  sp_primary : bool
}.

Record link : Type := MkLink {
  l_url : pystr;
  l_note : option pystr
}.

Record Bill : Type := MkBill {
  identifier : pystr;
  legislative_session : pystr;
  chamber : pystr;
  title : pystr;
  classification : pystr;
  sources : list link;
  actions : list action;
  sponsorships : list sponsorship;
  documents : list link
}.

Definition new_Bill (name session chamber_ title_ classification_ : pystr)
    : Bill :=
  MkBill name session chamber_ title_ classification_ [] [] [] [].

Definition add_source (b : Bill) (url : pystr) (note : pystr) : Bill :=
  MkBill (identifier b) (legislative_session b) (chamber b) (title b)
    (classification b) (sources b ++ [MkLink url (Some note)]) (actions b)
    (sponsorships b) (documents b).

Definition add_action (b : Bill) (description : pystr) (date : pyval)
    (organization : pyval) : Bill :=
  MkBill (identifier b) (legislative_session b) (chamber b) (title b)
    (classification b) (sources b)
    (actions b ++ [MkAction description date organization])
    (sponsorships b) (documents b).

Definition add_sponsorship (b : Bill) (name entity_type classification_ : pystr)
    (primary : bool) : Bill :=
  MkBill (identifier b) (legislative_session b) (chamber b) (title b)
    (classification b) (sources b) (actions b)
    (sponsorships b ++ [MkSponsorship name entity_type classification_ primary])
    (documents b).

Definition set_title (b : Bill) (t : pystr) : Bill :=
  MkBill (identifier b) (legislative_session b) (chamber b) t
    (classification b) (sources b) (actions b) (sponsorships b) (documents b).

(** ** What [lxml] shows of a fragment

    The results of the XPath queries the parsers make, after
    [make_links_absolute]: the text of every [strong] and [a] element
    ([None] for an element without text), every [href] of an [a], and for
    every [li] the [href]s and the texts of its child [a] elements. *)

Record li_node : Type := MkLi {
  li_a_href : list pystr;
  li_a_text : list (option pystr)
}.

Record dom : Type := MkDom {
  strong_text : list (option pystr);
  a_text : list (option pystr);
  a_href : list pystr;
  li : list li_node
}.

(** [lxml.html.fromstring(bill)] followed by [make_links_absolute(root_url)]. *)
Variable html : pystr -> pystr -> result dom.

(** [self._tz.localize(dateutil.parser.parse(text))] *)
Variable parse_date : pystr -> result datetime.

(** [str.title] *)
Variable py_title : pystr -> pystr.

(** [lxml.html.fromstring(self._download_pdf(url)).xpath(//text)]: the
    text of every node the PDF converter emits. *)
Variable pdf_text : pystr -> result (list (option pystr)).

(** [self.get(url).text] *)
Variable http_get : pystr -> result pystr.

(** [bill_obj.add_document_link(url=url, note=note)]: the library files the
    address under its note and may skip or refuse an address the record
    already has. *)
Variable add_document_link : Bill -> pystr -> option pystr -> result Bill.

(** [x.attr] on a value that may be [None]. *)
Definition attr {A} (x : option A) : result A :=
  match x with
  | Some a => Ok a
  | None => Raise AttributeError
  end.

(** [d[key]] *)
Definition dict_get (d : gmap string pyval) (key : string) : result pyval :=
  match d !! key with
  | Some v => Ok v
  | None => Raise KeyError
  end.

(** ** The PDF text normalizer and the detail extractors *)

(** The text handed to the patterns: the nodes with text that is not
    blank and not boilerplate, joined by newlines. *)
Definition keep_node (d : option pystr) : bool :=
  match d with
  | None => false
  | Some t =>
      match t with [] => false | _ => true end
      && match strip t with [] => false | _ => true end
      && negb (bool_decide (strip t ∈ filtered_details))
  end.

Definition text_only (data : list (option pystr)) : pystr :=
  join [10%N] (omap id (List.filter keep_node data)).

Definition collapse_committee (g : pystr) : pystr :=
  join (str " ") (split_ws (replace [10%N] (str " ") g)).

Definition bill_details_of_text (text : pystr) : result (gmap string pyval) :=
  let details : gmap string pyval :=
    {[ "IntroducedDate" := PNone; "ReferredDate" := PNone;
       "Committee" := PNone ]} in
  let full_dates := findall date_time_re text in
  let days := findall date_re text in
  let* details :=
    match full_dates with
    | [] => Ok details
    | _ =>
        let* x := getitem full_dates 1 in
        let* d := parse_date x in
        Ok (<["IntroducedDate" := PDate d]> details)
    end in
  let* details :=
    (if 2 <? length days
     then let* x := getitem days 2 in
          let* d := parse_date x in
          Ok (<["ReferredDate" := PDate d]> details)
     else Ok details) in
  match search committee_re text with
  | Some m =>
      let* g := attr (group1 m) in
      Ok (<["Committee" := PStr (collapse_committee g)]> details)
  | None => Ok details
  end.

Definition _get_bill_details (url : pystr) : result (gmap string pyval) :=
  let* data := pdf_text url in
  bill_details_of_text (text_only data).

Definition resolution_details_of_text (text : pystr)
    : result (gmap string pyval) :=
  let details : gmap string pyval :=
    {[ "IntroducedDate" := PNone; "PresentationDate" := PNone;
       "AdoptedDate" := PNone ]} in
  let full_dates := findall date_time_re text in
  match full_dates with
  | [] => Ok details
  | _ =>
      let* x := getitem full_dates 1 in
      let* d := parse_date x in
      let details := <["IntroducedDate" := PDate d]> details in
      let* details :=
        (if 1 <? length full_dates
         then let* x := getitem full_dates 2 in
              let* d := parse_date x in
              Ok (<["PresentationDate" := PDate d]> details)
         else Ok details) in
      if 2 <? length full_dates
      then let* x := getitem full_dates 3 in
           let* d := parse_date x in
           Ok (<["AdoptedDate" := PDate d]> details)
      else Ok details
  end.

Definition _get_resolution_details (url : pystr)
    : result (gmap string pyval) :=
  let* data := pdf_text url in
  resolution_details_of_text (text_only data).

(** ** The block parsers

    The parsers look the details up with [self._get_details].  What the
    name resolves to on [self] is their argument [get_details].  The class
    has no method of this name: on an instance of [GUBillScraper] the call
    is [_get_details], which raises [AttributeError]. *)

Definition _get_details (url : pystr) : result (gmap string pyval) :=
  Raise AttributeError.

Section Parsers.

Variable get_details : pystr -> result (gmap string pyval).

(** The sponsor names of a fragment: the lines of the sponsor block that
    are not blank, each stripped of [/] and then of whitespace. *)
Definition sponsor_names (block : pystr) : list pystr :=
  List.map (fun s => strip (strip_chars (str "/") s))
    (List.filter (fun s => match strip s with [] => false | _ => true end)
       (split [10%N] block)).

Definition sponsors_of (bill : pystr) : result (list pystr) :=
  let* m := attr (search sponsors_match_re bill) in
  let* g := attr (group1 m) in
  Ok (sponsor_names g).

(** The primary sponsor, then a cosponsor for each of [sponsors[1:]]. *)
Definition add_sponsors (b : Bill) (sponsors : list pystr) : result Bill :=
  let* first := getitem sponsors 0 in
  let b := add_sponsorship b first (str "person") (str "primary") true in
  Ok (foldl (fun b sponsor =>
               add_sponsorship b sponsor (str "person") (str "cosponsor") false)
        b (tail_from1 sponsors)).

(** The actions of a bill, written out twice in [_process_bill], once in
    each branch. *)
Definition bill_actions (b : Bill) (details : gmap string pyval)
    : result Bill :=
  let* introduced := dict_get details "IntroducedDate" in
  let b :=
    if truthy introduced
    then add_action b (str "Introduced") introduced PNone
    else b in
  let* referred := dict_get details "ReferredDate" in
  if truthy referred
  then let* committee := dict_get details "Committee" in
       if truthy committee
       then Ok (add_action b (str "Referred To Committee") referred committee)
       else Ok (add_action b (str "Referred To Committee") referred PNone)
  else Ok b.

Definition add_item_link (b : result Bill) (item : li_node) : result Bill :=
  let* b := b in
  let* url := getitem (li_a_href item) 0 in
  let* note := getitem (li_a_text item) 0 in
  add_document_link b url note.

Definition _process_bill (session bill root_url : pystr) : result Bill :=
  let* xml := html bill root_url in
  let* strong := getitem (strong_text xml) 0 in
  let* line := attr strong in
  let name_parts := split_ws (removeprefix (str "Bill No. ") (strip line)) in
  let* part := getitem name_parts 0 in
  let name := removeprefix (str "Bill No. ") (strip part) in
  let* bill_link := getitem (a_href xml) 0 in
  let bill_obj :=
    new_Bill name session (str "unicameral") (str "See Introduced Link")
      (str "bill") in
  let bill_obj := add_source bill_obj root_url (str "Bill Index") in
  let bill_obj := add_source bill_obj bill_link (str "Bill Introduced") in
  if isin (str "WITHDRAWN") (join [] name_parts)
  then
    let* details := get_details bill_link in
    bill_actions bill_obj details
  else
    let* item := getitem (li xml) 0 in
    let* status := getitem (li_a_href item) 0 in
    let* bill_obj :=
      add_document_link bill_obj status (Some (str "Bill Status")) in
    let* m := attr (search desc_match_re bill) in
    let* g := attr (group1 m) in
    let* description := getitem (split (str "<p>") (strip g)) (-1) in
    let bill_obj := set_title bill_obj (py_title description) in
    let* sponsors := sponsors_of bill in
    let* bill_obj := add_sponsors bill_obj sponsors in
    let* bill_obj :=
      foldl add_item_link (Ok bill_obj) (tail_from1 (li xml)) in
    let* details := get_details status in
    bill_actions bill_obj details.

(** [a, b = parts] *)
Definition unpack2 {A} (parts : list A) : result (A * A) :=
  match parts with
  | [a; b] => Ok (a, b)
  | _ => Raise ValueError
  end.

(** The result tail: when the last sponsor entry holds a [-], it is cut at
    the [-] into the name, which replaces the entry, and a result datum,
    which is cut at whitespace into a label and a date. *)
Definition result_tail (sponsors : list pystr)
    : result (list pystr * pyval * pyval) :=
  let* last_entry := getitem sponsors (-1) in
  if isin (str "-") last_entry
  then
    let* halves := unpack2 (split (str "-") last_entry) in
    let sponsors := <[length sponsors - 1 := fst halves]> sponsors in
    let* tokens := unpack2 (split_ws (snd halves)) in
    Ok (sponsors, PStr (fst tokens), PStr (snd tokens))
  else Ok (sponsors, PNone, PNone).

(** The actions of a resolution. *)
Definition resolution_actions (b : Bill) (details : gmap string pyval)
    : result Bill :=
  let* introduced := dict_get details "IntroducedDate" in
  let b :=
    if truthy introduced
    then add_action b (str "Introduced") introduced PNone
    else b in
  let* presentation := dict_get details "PresentationDate" in
  let* b :=
    (if truthy presentation
     then let* date := dict_get details "ReferredDate" in
          Ok (add_action b (str "Presented") date PNone)
     else Ok b) in
  let* adopted := dict_get details "AdoptedDate" in
  if truthy adopted
  then let* date := dict_get details "ReferredDate" in
       Ok (add_action b (str "Adopted") date PNone)
  else Ok b.

Definition _process_resolution (session bill root_url : pystr)
    : result Bill :=
  let* xml := html bill root_url in
  let* first_a := getitem (a_text xml) 0 in
  let* text := attr first_a in
  let res_parts := split_ws (removeprefix (str "Res. No. ") text) in
  let* part := getitem res_parts 0 in
  let name := strip part in
  let* bill_link := getitem (a_href xml) 0 in
  let bill_obj :=
    new_Bill name session (str "unicameral") (str "See Introduced Link")
      (str "resolution") in
  let bill_obj := add_source bill_obj root_url (str "Bill Index") in
  let bill_obj := add_source bill_obj bill_link (str "Bill Introduced") in
  let* m := attr (search res_desc_match_re bill) in
  let* description := attr (group1 m) in
  let bill_obj := set_title bill_obj (py_title description) in
  let* sponsors := sponsors_of bill in
  let* tail := result_tail sponsors in
  let '(sponsors, result, result_date) := tail in
  let bill_obj :=
    if truthy result && truthy result_date
    then add_action bill_obj
           (match result with PStr s => s | _ => [] end) result_date PNone
    else bill_obj in
  let* bill_obj := add_sponsors bill_obj sponsors in
  let* details := get_details bill_link in
  resolution_actions bill_obj details.

End Parsers.

(** ** The stages of the parsers

    [_process_bill] builds the record and its sources ([bill_head]), then,
    for a bill that is not withdrawn, adds the status link, the title, the
    sponsors and the document links ([bill_body]); what is left is to fetch
    the details and emit the actions.  [_process_resolution] likewise
    builds the record and reads the sponsor entries ([resolution_head])
    before it handles the result tail. *)

Definition bill_head (session bill root_url : pystr)
    : result (dom * list pystr * pystr * Bill) :=
  let* xml := html bill root_url in
  let* strong := getitem (strong_text xml) 0 in
  let* line := attr strong in
  let name_parts := split_ws (removeprefix (str "Bill No. ") (strip line)) in
  let* part := getitem name_parts 0 in
  let name := removeprefix (str "Bill No. ") (strip part) in
  let* bill_link := getitem (a_href xml) 0 in
  let bill_obj :=
    new_Bill name session (str "unicameral") (str "See Introduced Link")
      (str "bill") in
  let bill_obj := add_source bill_obj root_url (str "Bill Index") in
  let bill_obj := add_source bill_obj bill_link (str "Bill Introduced") in
  Ok (xml, name_parts, bill_link, bill_obj).

Definition bill_body (xml : dom) (bill : pystr) (bill_obj : Bill)
    : result (pystr * Bill) :=
  let* item := getitem (li xml) 0 in
  let* status := getitem (li_a_href item) 0 in
  let* bill_obj :=
    add_document_link bill_obj status (Some (str "Bill Status")) in
  let* m := attr (search desc_match_re bill) in
  let* g := attr (group1 m) in
  let* description := getitem (split (str "<p>") (strip g)) (-1) in
  let bill_obj := set_title bill_obj (py_title description) in
  let* sponsors := sponsors_of bill in
  let* bill_obj := add_sponsors bill_obj sponsors in
  let* bill_obj :=
    foldl add_item_link (Ok bill_obj) (tail_from1 (li xml)) in
  Ok (status, bill_obj).

Definition resolution_head (session bill root_url : pystr)
    : result (pystr * Bill * list pystr) :=
  let* xml := html bill root_url in
  let* first_a := getitem (a_text xml) 0 in
  let* text := attr first_a in
  let res_parts := split_ws (removeprefix (str "Res. No. ") text) in
  let* part := getitem res_parts 0 in
  let name := strip part in
  let* bill_link := getitem (a_href xml) 0 in
  let bill_obj :=
    new_Bill name session (str "unicameral") (str "See Introduced Link")
      (str "resolution") in
  let bill_obj := add_source bill_obj root_url (str "Bill Index") in
  let bill_obj := add_source bill_obj bill_link (str "Bill Introduced") in
  let* m := attr (search res_desc_match_re bill) in
  let* description := attr (group1 m) in
  let bill_obj := set_title bill_obj (py_title description) in
  let* sponsors := sponsors_of bill in
  Ok (bill_link, bill_obj, sponsors).

(** ** The session orchestrator *)

Definition marker : pystr := str "-->".

Definition res_url (session : pystr) : pystr :=
  str "https://guamlegislature.com/" ++ session ++ str "_Guam_Legislature/"
  ++ session ++ str "_res_content.htm".

(** The fragments of a resolution index page: the matches of
    [res_match_re] in the second-to-last piece of the page cut at [-->]. *)
Definition resolution_fragments (page : pystr) : result (list pystr) :=
  let* doc := getitem (split marker page) (-2) in
  Ok (findall res_match_re doc).

(** [scrape] yields, for each fragment, the generator
    [_process_resolution] returns; an element of the list is what that
    generator gives when it is run.  As for the parsers, [get_details] is
    what [self._get_details] resolves to. *)
Definition scrape (get_details : pystr -> result (gmap string pyval))
    (session : pystr) : result (list (result Bill)) :=
  let* page := http_get (res_url session) in
  let* fragments := resolution_fragments page in
  Ok (List.map
        (fun resolution =>
           _process_resolution get_details session resolution
             (res_url session))
        fragments).

End Scraper.

Arguments PNone {datetime}.
Arguments PDate {datetime} d.
Arguments PStr {datetime} s.
Arguments truthy {datetime} v.
Arguments MkAction {datetime} _ _ _.
Arguments a_description {datetime} _.
Arguments a_date {datetime} _.
Arguments a_organization {datetime} _.
Arguments MkBill {datetime} _ _ _ _ _ _ _ _ _.
Arguments identifier {datetime} _.
Arguments title {datetime} _.
Arguments classification {datetime} _.
Arguments sources {datetime} _.
Arguments actions {datetime} _.
Arguments sponsorships {datetime} _.
Arguments documents {datetime} _.
Arguments new_Bill {datetime} _ _ _ _ _.
Arguments add_source {datetime} _ _ _.
Arguments add_action {datetime} _ _ _ _.
Arguments add_sponsorship {datetime} _ _ _ _ _.
Arguments set_title {datetime} _ _.
Arguments dict_get {datetime} _ _.
Arguments bill_details_of_text {datetime} _ _.
Arguments resolution_details_of_text {datetime} _ _.
Arguments _get_bill_details {datetime} _ _ _.
Arguments _get_resolution_details {datetime} _ _ _.
Arguments add_sponsors {datetime} _ _.
Arguments bill_actions {datetime} _ _.
Arguments resolution_actions {datetime} _ _.
Arguments result_tail {datetime} _.
Arguments _get_details {datetime} _.
Arguments add_item_link {datetime} _ _ _.
Arguments _process_bill {datetime} _ _ _ _ _ _ _.
Arguments _process_resolution {datetime} _ _ _ _ _ _.
Arguments scrape {datetime} _ _ _ _ _.
Arguments bill_head {datetime} _ _ _ _.
Arguments bill_body {datetime} _ _ _ _ _.
Arguments resolution_head {datetime} _ _ _ _ _.

(** ** Notions the claims are stated with *)

(** A field of a details dictionary is set when it is not [None]. *)
Definition is_set {datetime} (v : pyval datetime) : bool :=
  match v with
  | PNone => false
  | _ => true
  end.

(** The actions the details of a bill call for: "Introduced" when the
    introduction date is set, "Referred To Committee" when the referral
    date is set, with the committee as its organization when that is set. *)
Definition expected_bill_actions {datetime}
    (introduced referred committee : pyval datetime)
    : list (action datetime) :=
  (if is_set introduced
   then [MkAction (str "Introduced") introduced PNone] else []) ++
  (if is_set referred
   then [MkAction (str "Referred To Committee") referred
           (if is_set committee then committee else PNone)]
   else []).

(** Two records that differ at most in their actions. *)
Definition same_but_actions {datetime} (b b' : Bill datetime) : Prop :=
  identifier b' = identifier b /\
  legislative_session datetime b' = legislative_session datetime b /\
  chamber datetime b' = chamber datetime b /\
  title b' = title b /\
  classification b' = classification b /\
  sources b' = sources b /\
  sponsorships b' = sponsorships b /\
  documents b' = documents b.


(** A record-boundary pattern: a group of an opening text, any characters
    (lazy, newlines included) and a closing text. *)
Definition bracket (opener closer : pystr) : regex :=
  Grp (Cat (lit opener) (Cat (Rep any_char 0 None false) (lit closer))).

(** [t.find(e)]: where the first occurrence of [e] in [t] starts. *)
Fixpoint find (e t : pystr) : option nat :=
  if startswith e t then Some 0
  else match t with
       | [] => None
       | _ :: t' => S <$> find e t'
       end.

(** The fragments lie in the text one after the other, in this order. *)
Fixpoint in_order (fragments : list pystr) (doc : pystr) : Prop :=
  match fragments with
  | [] => True
  | f :: fs =>
      exists before after, doc = before ++ f ++ after /\ in_order fs after
  end.

(** What a record keeps from its creation on: the identifier, the session,
    the chamber, the kind and the sources. *)
Definition header {datetime} (b : Bill datetime)
    : pystr * pystr * pystr * pystr * list link :=
  (identifier b, legislative_session datetime b, chamber datetime b,
   classification b, sources b).

(** The only whitespace of a text is the plain space. *)
Definition plain_spaces (s : pystr) : Prop :=
  forall c, c ∈ s -> isspace c = true -> c = 32%N.

(** A fragment of a boundary pattern: the opening text, a body and the
    closing text, which occurs nowhere before the end. *)
Definition bracketed (q e f : pystr) : Prop :=
  exists body, f = q ++ body ++ e /\
               find e (body ++ e) = Some (length body).

(** [t.rfind(e)]: where the last occurrence of [e] in [t] starts. *)
Fixpoint rfind (e t : pystr) : option nat :=
  match match t with [] => None | _ :: t' => S <$> rfind e t' end with
  | Some i => Some i
  | None => if startswith e t then Some 0 else None
  end.

(** A pattern of an opening text, a greedy group of any characters
    (newlines included) and a closing text. *)
Definition enclosed (opener closer : pystr) : regex :=
  Cat (lit opener) (Cat (Grp (Rep any_char 0 None true)) (lit closer)).

(** A character other than [<] and [>]. *)
Definition not_angle (c : N) : bool := negb (is_one_of (str "<>") c).

(** The sponsor block of a fragment: the group of [sponsors_match_re]. *)
Definition sponsor_block (bill : pystr) : result pystr :=
  let* m := attr (search sponsors_match_re bill) in
  attr (group1 m).


(** A details dictionary as the bill extractor returns it: it has the three
    keys of a bill, and a field that is set is true as a condition. *)
Definition bill_shaped {datetime} (d : gmap string (pyval datetime))
    (introduced referred committee : pyval datetime) : Prop :=
  d !! "IntroducedDate" = Some introduced /\
  d !! "ReferredDate" = Some referred /\
  d !! "Committee" = Some committee /\
  truthy introduced = is_set introduced /\
  truthy referred = is_set referred /\
  truthy committee = is_set committee.

(** ** Sample inputs

    A [datetime] is stood for by the text it was parsed from, and every
    text parses. *)

Module Sample.

Definition nl : pystr := [10%N].

Definition parse_date (s : pystr) : result pystr := Ok s.
Definition py_title (s : pystr) : pystr := s.

(** PDF texts with one, two, three and four date-times. *)
Definition pdf1 : list (option pystr) :=
  [Some (str "BILL HISTORY"); None; Some (str "  ");
   Some (str "Received 1/2/2023 3:45 p.m.")].
Definition pdf2 : list (option pystr) :=
  pdf1 ++ [Some (str "Introduced 1/3/2023"); Some (str "9:05 a.m.")].
Definition pdf3 : list (option pystr) :=
  pdf2 ++ [Some (str "Presented 2/14/2023 10:00 AM")].
Definition pdf4 : list (option pystr) :=
  pdf3 ++ [Some (str "Adopted 3/1/2023 4:30 PM")].

(** A bill status PDF: two date-times, three dates and a committee. *)
Definition bill_pdf : list (option pystr) :=
  pdf2 ++ [Some (str "Referred 1/10/2023");
           Some (str "Committee on Appropriations");
           Some (str "and Finance")].

(** A PDF without any date. *)
Definition pdf0 : list (option pystr) := [Some (str "CLERKS OFFICE"); Some (str "I Liheslaturan Guahan")].

(** The details the extractors read from [bill_pdf] and from [pdf4]. *)
Definition bill_details : gmap string (pyval pystr) :=
  {[ "IntroducedDate" := PDate (str "1/3/2023" ++ nl ++ str "9:05 a.m.");
     "ReferredDate" := PDate (str "1/10/2023");
     "Committee" := PStr (str "Committee on Appropriations and Finance") ]}.

Definition resolution_details4 : gmap string (pyval pystr) :=
  {[ "IntroducedDate" := PDate (str "1/3/2023" ++ nl ++ str "9:05 a.m.");
     "PresentationDate" := PDate (str "2/14/2023 10:00 AM");
     "AdoptedDate" := PDate (str "3/1/2023 4:30 PM") ]}.

Definition no_resolution_details : gmap string (pyval pystr) :=
  {[ "IntroducedDate" := PNone; "PresentationDate" := PNone;
     "AdoptedDate" := PNone ]}.

Definition site : pystr := str "https://guamlegislature.com/37th_Guam_Legislature/".
Definition bills_url : pystr := site ++ str "37th_bills_intro_content.htm".

Definition resolutions_url : pystr := res_url (str "37th").

(** The sponsor entry with a result tail of the resolution samples. *)
Definition adopted_entry : pystr := str "J. Doe - ADOPTED 01/02/20".

Definition eqstr (a b : pystr) : bool :=
  (length a =? length b) && startswith a b.

(** A bill with two sponsors and two list items. *)
Definition bill_fragment : pystr :=
  str "<p><a href=Bills/163-37.pdf><strong>Bill No. 163-37 (LS)</strong></a>"
  ++ str "<p>AN ACT TO AMEND THINGS."
  ++ str "<li><a href=Status/163-37.pdf>Status</a>"
  ++ str "<li><a href=Hearing/163-37.pdf>Public Hearing</a>"
  ++ str " Sponsor(s) -J. Doe/" ++ nl ++ str "Jane Roe" ++ nl
  ++ str "<p><br>".

Definition bill_dom : dom :=
  MkDom [Some (str "Bill No. 163-37 (LS)")]
    [None; Some (str "Status"); Some (str "Public Hearing")]
    [site ++ str "Bills/163-37.pdf"; site ++ str "Status/163-37.pdf";
     site ++ str "Hearing/163-37.pdf"]
    [MkLi [site ++ str "Status/163-37.pdf"] [Some (str "Status")];
     MkLi [site ++ str "Hearing/163-37.pdf"] [Some (str "Public Hearing")]].

(** A withdrawn bill. *)
Definition withdrawn_fragment : pystr :=
  str "<p><a href=Bills/160-37.pdf>"
  ++ str "<strong>Bill No. 160-37 (LS) - WITHDRAWN</strong></a><br>".

Definition withdrawn_dom : dom :=
  MkDom [Some (str "Bill No. 160-37 (LS) - WITHDRAWN")] [None]
    [site ++ str "Bills/160-37.pdf"] [].

(** A resolution whose sponsor block ends in a result tail. *)
Definition res_fragment : pystr :=
  p_align_left ++ str "Relative to recognizing the teachers of Guam."
  ++ str "<a href=Res/12-37.pdf>Res. No. 12-37 (LS)</a>"
  ++ str " Sponsor(s) -Jane Roe /" ++ nl
  ++ str "J. Doe - ADOPTED 01/02/20" ++ nl ++ str "<p><br>".

Definition res_dom : dom :=
  MkDom [] [Some (str "Res. No. 12-37 (LS)")] [site ++ str "Res/12-37.pdf"] [].

(** A resolution with a single sponsor entry that carries the result tail. *)
Definition res_single_fragment : pystr :=
  p_align_left ++ str "Relative to commending the island's carvers."
  ++ str "<a href=Res/14-37.pdf>Res. No. 14-37 (LS)</a>"
  ++ str " Sponsor(s) -J. Doe - ADOPTED 01/02/20" ++ nl ++ str "<p><br>".

Definition res_single_dom : dom :=
  MkDom [] [Some (str "Res. No. 14-37 (LS)")] [site ++ str "Res/14-37.pdf"] [].

(** A resolution whose result has three words, and one whose last sponsor
    has a hyphenated name. *)
Definition res_three_words_fragment : pystr :=
  p_align_left ++ str "Relative to a matter."
  ++ str "<a href=Res/15-37.pdf>Res. No. 15-37 (LS)</a>"
  ++ str " Sponsor(s) -J. Doe - NOT ADOPTED 01/02/20" ++ nl ++ str "<p><br>".

Definition res_hyphen_fragment : pystr :=
  p_align_left ++ str "Relative to another matter."
  ++ str "<a href=Res/16-37.pdf>Res. No. 16-37 (LS)</a>"
  ++ str " Sponsor(s) -A. Doe-Smith - ADOPTED 01/02/20" ++ nl
  ++ str "<p><br>".

(** A resolution whose PDF carries four date-times. *)
Definition res_dated_fragment : pystr :=
  p_align_left ++ str "Relative to a dated matter."
  ++ str "<a href=Res/13-37.pdf>Res. No. 13-37 (LS)</a>"
  ++ str " Sponsor(s) -Jane Roe" ++ nl ++ str "<p><br>".

Definition res_dated_dom : dom :=
  MkDom [] [Some (str "Res. No. 13-37 (LS)")] [site ++ str "Res/13-37.pdf"] [].

Definition html (bill root_url : pystr) : result dom :=
  if eqstr bill bill_fragment then Ok bill_dom
  else if eqstr bill withdrawn_fragment then Ok withdrawn_dom
  else if eqstr bill res_fragment then Ok res_dom
  else if eqstr bill res_single_fragment then Ok res_single_dom
  else if eqstr bill res_three_words_fragment then Ok res_single_dom
  else if eqstr bill res_hyphen_fragment then Ok res_single_dom
  else if eqstr bill res_dated_fragment then Ok res_dated_dom
  else Raise ValueError.

Definition pdf_text (url : pystr) : result (list (option pystr)) :=
  if eqstr url (site ++ str "Status/163-37.pdf") then Ok bill_pdf
  else if eqstr url (site ++ str "Res/13-37.pdf") then Ok pdf4
  else Ok pdf0.

(** An index page of two resolutions: the listing stands between the last
    two [-->]. *)
Definition listing : pystr :=
  nl ++ join nl [res_fragment; res_single_fragment] ++ nl ++ str "<!-- end ".

Definition index_page : pystr :=
  str "<html><!-- head --><!-- listing " ++ marker ++ listing ++ marker
  ++ str "</html>".

(** A page with one [-->], after a resolution. *)
Definition single_marker_page : pystr :=
  res_fragment ++ marker ++ str "</html>".

(** A fragment with a [-->] inside. *)
Definition cut_fragment : pystr := p_align_left ++ str "a-->b<br>".

(** A stand-in for the library: it files every link at the end. *)
Definition add_document_link (b : Bill pystr) (url : pystr)
    (note : option pystr) : result (Bill pystr) :=
  Ok (MkBill (identifier b) (legislative_session pystr b) (chamber pystr b)
        (title b) (classification b) (sources b) (actions b)
        (sponsorships b) (documents b ++ [MkLink url note])).

End Sample.

(** * Properties *)

(** An equation between closed terms, checked by evaluating both sides. *)
Ltac by_evaluation :=
  match goal with
  | |- ?a = ?b => vm_cast_no_check (eq_refl b)
  end.

(** ** Indexing and binding *)

Lemma getitem_cons_0 {A} (x : A) (l : list A) : getitem (x :: l) 0 = Ok x.
Proof. reflexivity. Qed.

Lemma getitem_nil {A} (i : Z) : getitem (@nil A) i = Raise IndexError.
Proof.
  unfold getitem. rewrite lookup_nil.
  repeat case_match; reflexivity.
Qed.

Lemma getitem_nat {A} (l : list A) (n : nat) :
  getitem l (Z.of_nat n) =
  match l !! n with Some a => Ok a | None => Raise IndexError end.
Proof.
  unfold getitem.
  destruct (Z.of_nat n <? 0)%Z eqn:Hn; [apply Z.ltb_lt in Hn; lia|].
  rewrite Hn, Nat2Z.id. reflexivity.
Qed.

Lemma getitem_past_end {A} (l : list A) (n : nat) :
  length l <= n -> getitem l (Z.of_nat n) = Raise IndexError.
Proof.
  intros Hn. rewrite getitem_nat.
  rewrite (proj2 (lookup_ge_None l n)) by lia. reflexivity.
Qed.

Lemma getitem_lookup {A} (l : list A) (n : nat) (a : A) :
  l !! n = Some a -> getitem l (Z.of_nat n) = Ok a.
Proof. intros Hn. rewrite getitem_nat, Hn. reflexivity. Qed.

Lemma getitem_last {A} (l : list A) (a : A) :
  getitem (l ++ [a]) (-1) = Ok a.
Proof.
  unfold getitem. simpl.
  rewrite length_app. simpl.
  destruct (Z.of_nat (length l + 1) + -1 <? 0)%Z eqn:Hn;
    [apply Z.ltb_lt in Hn; lia|].
  replace (Z.to_nat (Z.of_nat (length l + 1) + -1)) with (length l + 0) by lia.
  rewrite lookup_app_r by lia.
  replace (length l + 0 - length l) with 0 by lia. reflexivity.
Qed.

Lemma bind_Ok_inv {A B} (m : result A) (f : A -> result B) (b : B) :
  bind m f = Ok b -> exists a, m = Ok a /\ f a = Ok b.
Proof. destruct m as [a|e]; simpl; [eauto|discriminate]. Qed.

(** ** The detail extractors *)

Section DetailExtractor.
Context {datetime : Type}.
Variable parse_date : pystr -> result datetime.

(** With no date-time in the text nothing is indexed: the resolution
    extractor returns its three fields unset. *)
Lemma resolution_details_no_match (text : pystr) :
  findall date_time_re text = [] ->
  resolution_details_of_text parse_date text =
  Ok {[ "IntroducedDate" := PNone; "PresentationDate" := PNone;
        "AdoptedDate" := PNone ]}.
Proof. unfold resolution_details_of_text. intros ->. reflexivity. Qed.

(** With four date-times or more, all of which parse, the three fields are
    the second, third and fourth. *)
Lemma resolution_details_four (text : pystr) (x0 x1 x2 x3 : pystr)
    (rest : list pystr) (d1 d2 d3 : datetime) :
  findall date_time_re text = x0 :: x1 :: x2 :: x3 :: rest ->
  parse_date x1 = Ok d1 -> parse_date x2 = Ok d2 -> parse_date x3 = Ok d3 ->
  resolution_details_of_text parse_date text =
  Ok (<["AdoptedDate" := PDate d3]>
      (<["PresentationDate" := PDate d2]>
       (<["IntroducedDate" := PDate d1]>
        {[ "IntroducedDate" := PNone; "PresentationDate" := PNone;
           "AdoptedDate" := PNone ]}))).
Proof.
  unfold resolution_details_of_text. intros -> H1 H2 H3.
  cbn [bind getitem]. simpl.
  rewrite H1. simpl. rewrite H2. simpl. rewrite H3. reflexivity.
Qed.

(** A dictionary the resolution extractor returns has no [ReferredDate]
    key, and has the three keys of a resolution. *)
Lemma resolution_details_keys (text : pystr) (d : gmap string (pyval datetime)) :
  resolution_details_of_text parse_date text = Ok d ->
  d !! "ReferredDate" = None /\
  is_Some (d !! "IntroducedDate") /\
  is_Some (d !! "PresentationDate") /\
  is_Some (d !! "AdoptedDate").
Proof.
  unfold resolution_details_of_text.
  destruct (findall date_time_re text) as [|x0 l].
  { intros [= <-]. repeat split; try reflexivity; eexists; reflexivity. }
  intros H.
  apply bind_Ok_inv in H as (x1 & _ & H).
  apply bind_Ok_inv in H as (d1 & _ & H).
  apply bind_Ok_inv in H as (m & Hm & H).
  assert (Hkeys : m !! "ReferredDate" = None /\
                  is_Some (m !! "IntroducedDate") /\
                  is_Some (m !! "PresentationDate") /\
                  is_Some (m !! "AdoptedDate")).
  { destruct (1 <? length (x0 :: l)).
    - apply bind_Ok_inv in Hm as (x2 & _ & Hm).
      apply bind_Ok_inv in Hm as (d2 & _ & Hm).
      injection Hm as <-.
      repeat split; try reflexivity; eexists; reflexivity.
    - injection Hm as <-.
      repeat split; try reflexivity; eexists; reflexivity. }
  destruct Hkeys as (Hr & Hi & Hp & Ha).
  destruct (2 <? length (x0 :: l)).
  - apply bind_Ok_inv in H as (x3 & _ & H).
    apply bind_Ok_inv in H as (d3 & _ & H).
    injection H as <-.
    rewrite !lookup_insert_ne by discriminate.
    repeat split; try assumption.
    rewrite lookup_insert_eq. eexists; reflexivity.
  - injection H as <-. auto.
Qed.

End DetailExtractor.

(** ** The matcher

    A match consumes a prefix of the text: the continuation is reached with
    a text that is no longer than the one matched against. *)

Section MatcherFacts.
Context {R : Type}.

Lemma rep_inv (g : bool) (p : N -> bool) (s : pystr) :
  forall lo hi b (k : bool -> pystr -> option R) x,
  rep g p lo hi b s k = Some x ->
  exists b' s', k b' s' = Some x /\ length s' <= length s.
Proof.
  induction s as [|c s IH]; intros lo hi b k x.
  - simpl. unfold orelse.
    destruct g, lo; simpl; try discriminate;
      (destruct (k b []) eqn:E; [|discriminate]); intros [= <-]; eauto.
  - simpl.
    assert (Hmore :
      (if p c then rep g p (Init.Nat.pred lo) (Nat.pred <$> hi) false s k
       else None) = Some x ->
      exists b' s', k b' s' = Some x /\ length s' <= S (length s)).
    { destruct (p c); [|discriminate]. intros H.
      apply IH in H as (b' & s' & Hk & Hlen). exists b', s'. split; [done|lia]. }
    assert (Hstop :
      match lo with 0 => k b (c :: s) | S _ => None end = Some x ->
      exists b' s', k b' s' = Some x /\ length s' <= S (length s)).
    { destruct lo; [|discriminate]. intros H. exists b, (c :: s). simpl. eauto. }
    destruct g; unfold orelse.
    + destruct hi as [[|h]|].
      * apply Hstop.
      * destruct (if p c then _ else _) eqn:E; [intros [= <-]; auto|apply Hstop].
      * destruct (if p c then _ else _) eqn:E; [intros [= <-]; auto|apply Hstop].
    + destruct (match lo with 0 => _ | S _ => _ end) eqn:E;
        [intros [= <-]; auto|].
      destruct hi as [[|h]|]; [discriminate|apply Hmore|apply Hmore].
Qed.

Lemma rmatch_inv (r : regex) :
  forall b s cap (k : bool -> pystr -> option pystr -> option R) x,
  rmatch r b s cap k = Some x ->
  exists b' s' cap', k b' s' cap' = Some x /\ length s' <= length s.
Proof.
  induction r as [p| |r1 IH1 r2 IH2|p lo hi g|r1 IH1]; intros b s cap k x; simpl.
  - destruct s as [|c s]; [discriminate|].
    destruct (p c); [|discriminate].
    intros H. exists false, s, cap. simpl. split; [done|lia].
  - destruct b; [|discriminate]. intros H. exists true, s, cap. eauto.
  - intros H. apply IH1 in H as (b1 & s1 & cap1 & H & Hlen1).
    apply IH2 in H as (b2 & s2 & cap2 & H & Hlen2).
    exists b2, s2, cap2. split; [done|lia].
  - intros H. apply rep_inv in H as (b' & s' & H & Hlen).
    exists b', s', cap. eauto.
  - intros H. apply IH1 in H as (b1 & s1 & cap1 & H & Hlen1).
    eexists b1, s1, _. eauto.
Qed.

End MatcherFacts.

Lemma search_go_inv (r : regex) (s : pystr) :
  forall b m, search_go r b s = Some m ->
  exists b' s', match_at r b' s' = Some m.
Proof.
  induction s as [|c s IH]; intros b m; simpl.
  - destruct (match_at r b []) eqn:E; [|discriminate].
    intros [= <-]. eauto.
  - destruct (match_at r b (c :: s)) eqn:E.
    + intros [= <-]. eauto.
    + apply IH.
Qed.

(** A group that opens on a character class has a text that starts with a
    character of the class. *)
Lemma group_starts_in_class (p : N -> bool) (r : regex) (b : bool)
    (s : pystr) (m : rmatched) :
  match_at (Grp (Cat (Cls p) r)) b s = Some m ->
  exists c g, m_group m = Some (c :: g) /\ p c = true.
Proof.
  unfold match_at. simpl.
  destruct s as [|c s]; [discriminate|].
  destruct (p c) eqn:Hp; [|discriminate].
  intros H. apply rmatch_inv in H as (b' & s' & cap' & H & Hlen).
  injection H as <-. simpl.
  replace (S (length s) - length s') with (S (length s - length s')) by lia.
  simpl. eauto.
Qed.

(** ** Strings *)

Lemma join_split_go_prefix (new sep : pystr) (n : nat) :
  forall s cur, exists t, join new (split_go n sep s cur) = rev cur ++ t.
Proof.
  induction n as [|n IH]; intros s cur; simpl.
  - eauto.
  - destruct s as [|c s]; [exists []; by rewrite app_nil_r|].
    destruct (startswith sep (c :: s)).
    + destruct (split_go n sep (drop (length sep) (c :: s)) []) eqn:E;
        [exists []; simpl; by rewrite app_nil_r|eauto].
    + destruct (IH s (c :: cur)) as [t Ht]. rewrite Ht. simpl.
      exists (c :: t). by rewrite <- app_assoc.
Qed.

Lemma replace_head (old new : pystr) (c : N) (s : pystr) :
  startswith old (c :: s) = false ->
  exists t, replace old new (c :: s) = c :: t.
Proof.
  intros Hc. unfold replace, split. simpl. rewrite Hc.
  destruct (join_split_go_prefix new old (length s) s [c]) as [t Ht].
  rewrite Ht. simpl. eauto.
Qed.

Lemma split_ws_go_open (s : pystr) :
  forall cur, cur <> [] ->
  exists t ts, split_ws_go s cur = t :: ts /\ t <> [].
Proof.
  induction s as [|c s IH]; intros cur Hcur; simpl.
  - destruct cur; [done|]. eexists _, _. split; [done|].
    simpl. intros H. by apply app_eq_nil in H as [_ ?].
  - destruct (isspace c).
    + destruct cur; [done|]. eexists _, _. split; [done|].
      simpl. intros H. by apply app_eq_nil in H as [_ ?].
    + apply IH. done.
Qed.

Lemma join_nonempty (sep t : pystr) (ts : list pystr) :
  t <> [] -> join sep (t :: ts) <> [].
Proof.
  intros Ht. simpl. destruct ts; [done|].
  intros H. by apply app_eq_nil in H as [? _].
Qed.

Lemma is_one_of_elem (chars : pystr) (c : N) :
  is_one_of chars c = true -> c ∈ chars.
Proof.
  unfold is_one_of. rewrite existsb_exists. intros (x & Hin & Heq).
  apply N.eqb_eq in Heq. subst x. by apply list_elem_of_In.
Qed.

Lemma collapse_committee_head (c : N) (g : pystr) :
  eqc 10 c = false -> isspace c = false -> collapse_committee (c :: g) <> [].
Proof.
  intros Hnl Hsp. unfold collapse_committee.
  assert (Hstart : startswith [10%N] (c :: g) = false).
  { cbn [startswith]. rewrite Hnl. reflexivity. }
  destruct (replace_head [10%N] (str " ") c g Hstart) as [t ->].
  unfold split_ws. cbn [split_ws_go]. rewrite Hsp.
  destruct (split_ws_go_open t [c]) as (tok & toks & -> & Htok); [done|].
  by apply join_nonempty.
Qed.

(** The committee name the bill extractor stores is never empty: it keeps
    the first character of the match, which is [c] or [C]. *)
Lemma collapse_committee_nonempty (c : N) (g : pystr) :
  is_one_of (str "cC") c = true -> collapse_committee (c :: g) <> [].
Proof.
  intros Hc. apply is_one_of_elem in Hc.
  change (str "cC") with [99%N; 67%N] in Hc.
  apply elem_of_cons in Hc as [->|Hc];
    [by apply collapse_committee_head|].
  apply elem_of_cons in Hc as [->|Hc];
    [by apply collapse_committee_head|].
  by apply elem_of_nil in Hc.
Qed.

Section DetailExtractorClaims.
Context {datetime : Type}.
Variable parse_date : pystr -> result datetime.

(** C3.  The introduction date is guarded by [if full_dates:], which is
    true from one match on, and then reads [full_dates[1]]: on a text with
    exactly one date-time match both extractors raise [IndexError] instead
    of leaving [IntroducedDate] unset. *)
Theorem single_date_time_raises (text x : pystr) :
  findall date_time_re text = [x] ->
  bill_details_of_text parse_date text = Raise IndexError /\
  resolution_details_of_text parse_date text = Raise IndexError.
Proof.
  intros Hone. unfold bill_details_of_text, resolution_details_of_text.
  rewrite Hone. split; reflexivity.
Qed.

(** C4.  The guards of the resolution extractor are one short of the
    index they protect ([len > 1] before [full_dates[2]], [len > 2] before
    [full_dates[3]]): on a text with one, two or three date-time matches,
    all of which parse, the extractor raises [IndexError] instead of
    leaving the absent fields unset. *)
Theorem short_resolution_raises (text : pystr) :
  1 <= length (findall date_time_re text) <= 3 ->
  (forall x, x ∈ findall date_time_re text -> exists d, parse_date x = Ok d) ->
  resolution_details_of_text parse_date text = Raise IndexError.
Proof.
  unfold resolution_details_of_text.
  destruct (findall date_time_re text) as [|x0 [|x1 [|x2 [|x3 l]]]];
    simpl; intros Hlen Hparse; try lia.
  - reflexivity.
  - destruct (Hparse x1) as [d1 H1]; [repeat constructor|].
    cbn. rewrite H1. reflexivity.
  - destruct (Hparse x1) as [d1 H1]; [repeat constructor|].
    destruct (Hparse x2) as [d2 H2]; [repeat constructor|].
    cbn. rewrite H1. cbn. rewrite H2. reflexivity.
Qed.

(** C1.  The "Presented" and "Adopted" actions read [details["ReferredDate"]],
    a key the resolution extractor never sets: whenever the extractor gives
    a [PresentationDate] or an [AdoptedDate], emitting the actions raises
    [KeyError] and no record is yielded. *)
Theorem presented_adopted_raise_KeyError (text : pystr)
    (details : gmap string (pyval datetime)) (b : Bill datetime) :
  resolution_details_of_text parse_date text = Ok details ->
  (exists v, details !! "PresentationDate" = Some v /\ truthy v = true) \/
  (exists v, details !! "AdoptedDate" = Some v /\ truthy v = true) ->
  resolution_actions b details = Raise KeyError.
Proof.
  intros Hd Hset.
  destruct (resolution_details_keys parse_date text details Hd)
    as (Hr & [vi Hi] & [vp Hp] & [va Ha]).
  unfold resolution_actions, dict_get. rewrite Hi, Hp, Ha, Hr. simpl.
  destruct Hset as [(v & Hv & Ht)|(v & Hv & Ht)].
  - rewrite Hp in Hv. injection Hv as ->. rewrite Ht. reflexivity.
  - rewrite Ha in Hv. injection Hv as ->. rewrite Ht.
    destruct (truthy vp); reflexivity.
Qed.

End DetailExtractorClaims.

Lemma single_date_time_raises_witness :
  findall date_time_re (text_only Sample.pdf1) = [str "1/2/2023 3:45 p.m."] /\
  bill_details_of_text Sample.parse_date (text_only Sample.pdf1)
    = Raise IndexError /\
  resolution_details_of_text Sample.parse_date (text_only Sample.pdf1)
    = Raise IndexError.
Proof.
  split; [vm_compute; reflexivity|].
  apply (single_date_time_raises Sample.parse_date (text_only Sample.pdf1)
           (str "1/2/2023 3:45 p.m.")).
  vm_compute. reflexivity.
Defined.

Lemma short_resolution_raises_witness :
  length (findall date_time_re (text_only Sample.pdf2)) = 2 /\
  resolution_details_of_text Sample.parse_date (text_only Sample.pdf2)
    = Raise IndexError.
Proof.
  split; [vm_compute; reflexivity|].
  apply (short_resolution_raises Sample.parse_date (text_only Sample.pdf2)).
  - vm_compute. lia.
  - intros x _. exists x. reflexivity.
Defined.

Lemma presented_adopted_raise_KeyError_witness :
  resolution_details_of_text Sample.parse_date (text_only Sample.pdf4)
    = Ok Sample.resolution_details4 /\
  resolution_actions (new_Bill [] [] [] [] []) Sample.resolution_details4
    = Raise KeyError.
Proof.
  split; [by_evaluation|].
  apply (presented_adopted_raise_KeyError Sample.parse_date
           (text_only Sample.pdf4)).
  - by_evaluation.
  - left. exists (PDate (str "2/14/2023 10:00 AM")).
    split; by_evaluation.
Defined.

(** ** The bill extractor and the actions of a bill *)

Section BillDetails.
Context {datetime : Type}.
Variable parse_date : pystr -> result datetime.

Lemma bill_shaped_init :
  bill_shaped (datetime := datetime)
    {[ "IntroducedDate" := PNone; "ReferredDate" := PNone;
       "Committee" := PNone ]} PNone PNone PNone.
Proof. repeat split. Qed.

Lemma bill_shaped_introduced (d : gmap string (pyval datetime)) vi vr vc x :
  bill_shaped d vi vr vc ->
  bill_shaped (<["IntroducedDate" := PDate x]> d) (PDate x) vr vc.
Proof.
  intros (Hi & Hr & Hc & Ti & Tr & Tc). unfold bill_shaped.
  rewrite lookup_insert_eq, !lookup_insert_ne by discriminate. auto 10.
Qed.

Lemma bill_shaped_referred (d : gmap string (pyval datetime)) vi vr vc x :
  bill_shaped d vi vr vc ->
  bill_shaped (<["ReferredDate" := PDate x]> d) vi (PDate x) vc.
Proof.
  intros (Hi & Hr & Hc & Ti & Tr & Tc). unfold bill_shaped.
  rewrite lookup_insert_eq, !lookup_insert_ne by discriminate. auto 10.
Qed.

Lemma bill_shaped_committee (d : gmap string (pyval datetime)) vi vr vc s :
  s <> [] ->
  bill_shaped d vi vr vc ->
  bill_shaped (<["Committee" := PStr s]> d) vi vr (PStr s).
Proof.
  intros Hs (Hi & Hr & Hc & Ti & Tr & Tc). unfold bill_shaped.
  rewrite lookup_insert_eq, !lookup_insert_ne by discriminate.
  repeat split; try assumption. destruct s; [done|reflexivity].
Qed.

(** Whatever the text, a dictionary the bill extractor returns has the
    shape [bill_shaped]. *)
Lemma bill_details_shaped (text : pystr) (d : gmap string (pyval datetime)) :
  bill_details_of_text parse_date text = Ok d ->
  exists vi vr vc, bill_shaped d vi vr vc.
Proof.
  unfold bill_details_of_text. intros H.
  apply bind_Ok_inv in H as (d1 & H1 & H).
  assert (S1 : exists vi, bill_shaped d1 vi PNone PNone).
  { destruct (findall date_time_re text).
    - injection H1 as <-. eexists. apply bill_shaped_init.
    - apply bind_Ok_inv in H1 as (x & _ & H1).
      apply bind_Ok_inv in H1 as (dt & _ & H1). injection H1 as <-.
      eexists. eapply bill_shaped_introduced, bill_shaped_init. }
  destruct S1 as [vi S1].
  apply bind_Ok_inv in H as (d2 & H2 & H).
  assert (S2 : exists vr, bill_shaped d2 vi vr PNone).
  { destruct (2 <? length (findall date_re text)).
    - apply bind_Ok_inv in H2 as (x & _ & H2).
      apply bind_Ok_inv in H2 as (dt & _ & H2). injection H2 as <-.
      eexists. by eapply bill_shaped_referred.
    - injection H2 as <-. eauto. }
  destruct S2 as [vr S2].
  destruct (search committee_re text) as [m|] eqn:Hm.
  - apply bind_Ok_inv in H as (g & Hg & H). injection H as <-.
    apply search_go_inv in Hm as (b' & s' & Hm).
    apply group_starts_in_class in Hm as (c & g' & Hgrp & Hc).
    unfold group1 in Hg. rewrite Hgrp in Hg. injection Hg as <-.
    eexists vi, vr, _. eapply bill_shaped_committee; [|done].
    by apply collapse_committee_nonempty.
  - injection H as <-. eauto.
Qed.

(** On such a dictionary [bill_actions] succeeds and appends exactly the
    actions the details call for. *)
Lemma bill_actions_shaped (b : Bill datetime)
    (d : gmap string (pyval datetime)) vi vr vc :
  bill_shaped d vi vr vc ->
  exists b', bill_actions b d = Ok b' /\
    actions b' = actions b ++ expected_bill_actions vi vr vc /\
    same_but_actions b b'.
Proof.
  intros (Hi & Hr & Hc & Ti & Tr & Tc).
  unfold bill_actions, dict_get. rewrite Hi, Hr. simpl.
  rewrite Ti, Tr. unfold expected_bill_actions.
  destruct (is_set vi), (is_set vr); simpl;
    try (rewrite Hc; simpl; rewrite Tc; destruct (is_set vc));
    eexists; (split; [reflexivity|]);
    (split; [simpl; rewrite <- ?app_assoc, ?app_nil_r; reflexivity
            |by repeat split]).
Qed.

End BillDetails.

(** ** The bill block parser *)

Section BillParser.
Context {datetime : Type}.
Variable html : pystr -> pystr -> result dom.
Variable py_title : pystr -> pystr.
Variable add_document_link :
  Bill datetime -> pystr -> option pystr -> result (Bill datetime).
Variable get_details : pystr -> result (gmap string (pyval datetime)).

(** [_process_bill] is its stages in sequence. *)
Lemma process_bill_stages (session bill root_url : pystr) :
  _process_bill html py_title add_document_link get_details session bill
    root_url =
  let* head := bill_head (datetime := datetime) html session bill root_url in
  let '(xml, name_parts, bill_link, bill_obj) := head in
  if isin (str "WITHDRAWN") (join [] name_parts)
  then let* details := get_details bill_link in
       bill_actions bill_obj details
  else let* body := bill_body py_title add_document_link xml bill bill_obj in
       let* details := get_details (fst body) in
       bill_actions (snd body) details.
Proof.
  unfold _process_bill, bill_head, bill_body.
  destruct (html bill root_url) as [xml|]; [|reflexivity]. simpl.
  destruct (getitem (strong_text xml) 0) as [strong|]; [|reflexivity]. simpl.
  destruct (attr strong) as [line|]; [|reflexivity]. simpl.
  destruct (getitem (split_ws _) 0) as [part|]; [|reflexivity]. simpl.
  destruct (getitem (a_href xml) 0) as [bill_link|]; [|reflexivity]. simpl.
  destruct (isin _ _); [reflexivity|].
  destruct (getitem (li xml) 0) as [item|]; [|reflexivity]. simpl.
  destruct (getitem (li_a_href item) 0) as [status|]; [|reflexivity]. simpl.
  destruct (add_document_link _ _ _) as [b0|]; [|reflexivity]. simpl.
  destruct (attr (search _ _)) as [m|]; [|reflexivity]. simpl.
  destruct (attr (group1 m)) as [g|]; [|reflexivity]. simpl.
  destruct (getitem (split _ _) (-1)) as [description|]; [|reflexivity]. simpl.
  destruct (sponsors_of bill) as [sponsors|]; [|reflexivity]. simpl.
  destruct (add_sponsors _ sponsors) as [b1|]; [|reflexivity]. simpl.
  destruct (foldl _ _ _) as [b2|]; reflexivity.
Qed.

(** A record is yielded only after the details were looked up and
    found. *)
Lemma process_bill_needs_details (session bill root_url : pystr)
    (record : Bill datetime) :
  _process_bill html py_title add_document_link get_details session bill
    root_url = Ok record ->
  exists url details, get_details url = Ok details.
Proof.
  rewrite process_bill_stages. intros H.
  apply bind_Ok_inv in H as ([[[xml name_parts] bill_link] bill_obj] & _ & H).
  destruct (isin (str "WITHDRAWN") (join [] name_parts)).
  - apply bind_Ok_inv in H as (details & Hd & _). eauto.
  - apply bind_Ok_inv in H as (body & _ & H).
    apply bind_Ok_inv in H as (details & Hd & _). eauto.
Qed.

Lemma bill_head_fields (session bill root_url : pystr) xml name_parts
    bill_link (bill_obj : Bill datetime) :
  bill_head html session bill root_url
    = Ok (xml, name_parts, bill_link, bill_obj) ->
  exists line part,
    html bill root_url = Ok xml /\
    getitem (strong_text xml) 0 = Ok (Some line) /\
    name_parts = split_ws (removeprefix (str "Bill No. ") (strip line)) /\
    getitem name_parts 0 = Ok part /\
    getitem (a_href xml) 0 = Ok bill_link /\
    identifier bill_obj = removeprefix (str "Bill No. ") (strip part) /\
    classification bill_obj = str "bill" /\
    actions bill_obj = [] /\ sponsorships bill_obj = [] /\
    documents bill_obj = [].
Proof.
  unfold bill_head. intros H.
  apply bind_Ok_inv in H as (xml' & Hxml & H).
  apply bind_Ok_inv in H as (strong & Hstrong & H).
  apply bind_Ok_inv in H as (line & Hline & H).
  apply bind_Ok_inv in H as (part & Hpart & H).
  apply bind_Ok_inv in H as (link' & Hlink & H).
  injection H as <- <- <- <-.
  destruct strong as [line'|]; [|discriminate]. injection Hline as ->.
  exists line, part. by repeat split.
Qed.

Lemma foldl_cosponsors (l : list pystr) :
  forall b : Bill datetime,
  let b' := foldl (fun b sponsor =>
                     add_sponsorship b sponsor (str "person")
                       (str "cosponsor") false) b l in
  sponsorships b' =
    sponsorships b ++
    List.map (fun s => MkSponsorship s (str "person") (str "cosponsor") false) l /\
  actions b' = actions b /\ documents b' = documents b.
Proof.
  induction l as [|s l IH]; intros b; simpl.
  - by rewrite app_nil_r.
  - destruct (IH (add_sponsorship b s (str "person") (str "cosponsor") false))
      as (Hs & Ha & Hd).
    rewrite Hs, Ha, Hd. simpl. by rewrite <- app_assoc.
Qed.

(** [add_sponsors] fails on an empty list and otherwise appends the first
    name as the primary sponsor and the others as cosponsors. *)
Lemma add_sponsors_spec (b b' : Bill datetime) (sponsors : list pystr) :
  add_sponsors b sponsors = Ok b' ->
  exists first rest,
    sponsors = first :: rest /\
    sponsorships b' =
      sponsorships b ++
      MkSponsorship first (str "person") (str "primary") true ::
      List.map (fun s => MkSponsorship s (str "person") (str "cosponsor") false)
        rest /\
    actions b' = actions b /\ documents b' = documents b.
Proof.
  unfold add_sponsors. intros H.
  destruct sponsors as [|first rest]; [discriminate|].
  simpl in H. injection H as <-. exists first, rest.
  destruct (foldl_cosponsors rest
              (add_sponsorship b first (str "person") (str "primary") true))
    as (Hs & Ha & Hd).
  change (tail_from1 (first :: rest)) with rest.
  rewrite Hs, Ha, Hd. split; [reflexivity|].
  split; [|by split]. cbn [sponsorships add_sponsorship].
  by rewrite <- app_assoc.
Qed.

Lemma add_sponsors_total (b : Bill datetime) (first : pystr)
    (rest : list pystr) :
  exists b', add_sponsors b (first :: rest) = Ok b'.
Proof. unfold add_sponsors. simpl. eauto. Qed.

End BillParser.

Section BillParserClaims.
Context {datetime : Type}.
Variable html : pystr -> pystr -> result dom.
Variable py_title : pystr -> pystr.
Variable add_document_link :
  Bill datetime -> pystr -> option pystr -> result (Bill datetime).

(** C2.  [_process_bill] looks the details up with [self._get_details], a
    method the class does not have.  For every bill whose parsing goes
    through up to that call (for a bill that is not withdrawn: the status
    link, the title, the sponsors and the document links), the call raises
    [AttributeError]: no "Introduced" and no "Referred To Committee" action
    is emitted, whatever the dates of the PDF, and no record is yielded. *)
Theorem bill_detail_lookup_raises (session bill root_url : pystr)
    (xml : dom) (name_parts : list pystr) (bill_link : pystr)
    (bill_obj : Bill datetime) :
  bill_head html session bill root_url
    = Ok (xml, name_parts, bill_link, bill_obj) ->
  (isin (str "WITHDRAWN") (join [] name_parts) = false ->
   exists status body,
     bill_body py_title add_document_link xml bill bill_obj
       = Ok (status, body)) ->
  _process_bill html py_title add_document_link _get_details session bill
    root_url = Raise AttributeError.
Proof.
  intros Hhead Hbody. rewrite process_bill_stages, Hhead. cbn [bind].
  destruct (isin (str "WITHDRAWN") (join [] name_parts)); [reflexivity|].
  destruct Hbody as (status & body & ->); reflexivity.
Qed.

End BillParserClaims.

Lemma bill_detail_lookup_raises_witness :
  _process_bill Sample.html Sample.py_title Sample.add_document_link
    _get_details (str "37th") Sample.bill_fragment Sample.bills_url
  = Raise AttributeError.
Proof.
  eapply (bill_detail_lookup_raises Sample.html Sample.py_title
            Sample.add_document_link (str "37th") Sample.bill_fragment
            Sample.bills_url).
  - vm_compute. reflexivity.
  - intros _. eexists _, _. vm_compute. reflexivity.
Defined.

(** ** Containment, whitespace and tokens *)

Lemma eqc_eq (a b : N) : eqc a b = true <-> a = b.
Proof. unfold eqc. apply N.eqb_eq. Qed.

Lemma startswith_app (p t : pystr) : startswith p (p ++ t) = true.
Proof.
  induction p as [|a p IH]; [reflexivity|]. simpl.
  rewrite IH, andb_true_r. by apply eqc_eq.
Qed.

Lemma startswith_inv (p s : pystr) :
  startswith p s = true -> s = p ++ drop (length p) s.
Proof.
  revert s. induction p as [|a p IH]; intros s; [reflexivity|].
  destruct s as [|b s]; [discriminate|]. simpl.
  intros H. apply andb_true_iff in H as [Hab Hp].
  apply eqc_eq in Hab. subst b. f_equal. by apply IH.
Qed.

Lemma isin_app_r (needle pre s : pystr) :
  isin needle s = true -> isin needle (pre ++ s) = true.
Proof.
  intros H. induction pre as [|c pre IH]; [exact H|].
  simpl. rewrite IH. apply orb_true_r.
Qed.

Lemma isin_intro (needle pre post : pystr) :
  isin needle (pre ++ needle ++ post) = true.
Proof.
  apply isin_app_r. destruct (needle ++ post) eqn:E; simpl;
    rewrite <- E, startswith_app; reflexivity.
Qed.

Lemma isin_inv (needle s : pystr) :
  isin needle s = true -> exists pre post, s = pre ++ needle ++ post.
Proof.
  induction s as [|c s IH]; simpl.
  - rewrite orb_false_r. intros H. apply startswith_inv in H.
    exists [], (drop (length needle) []). exact H.
  - intros H. apply orb_true_iff in H as [H|H].
    + apply startswith_inv in H. exists [], (drop (length needle) (c :: s)).
      exact H.
    + destruct (IH H) as (pre & post & ->). by exists (c :: pre), post.
Qed.

Lemma join_nil_cons (t : pystr) (ts : list pystr) :
  join [] (t :: ts) = t ++ join [] ts.
Proof. destruct ts; simpl; [by rewrite app_nil_r|reflexivity]. Qed.

(** Joining the tokens of a text without a separator leaves the text with
    its whitespace removed. *)
Lemma join_split_ws_go (s : pystr) :
  forall cur, join [] (split_ws_go s cur) = rev cur ++ List.filter nonspace s.
Proof.
  induction s as [|c s IH]; intros cur; simpl.
  - destruct cur; simpl; by rewrite ?app_nil_r.
  - unfold nonspace at 1. destruct (isspace c); simpl.
    + destruct cur as [|x cur]; [apply IH|].
      rewrite join_nil_cons, IH. reflexivity.
    + rewrite IH. simpl. by rewrite <- app_assoc.
Qed.

Lemma join_split_ws (s : pystr) :
  join [] (split_ws s) = List.filter nonspace s.
Proof. apply join_split_ws_go. Qed.

Lemma filter_lstrip (s : pystr) :
  List.filter nonspace (lstrip_by isspace s) = List.filter nonspace s.
Proof.
  induction s as [|c s IH]; [reflexivity|]. simpl.
  unfold nonspace at 2. destruct (isspace c) eqn:E; simpl; [exact IH|].
  unfold nonspace at 1. rewrite E. reflexivity.
Qed.

Lemma filter_strip (s : pystr) :
  List.filter nonspace (strip s) = List.filter nonspace s.
Proof.
  unfold strip, strip_by, rstrip_by.
  rewrite filter_rev, filter_lstrip, <- filter_rev, rev_involutive.
  apply filter_lstrip.
Qed.

(** The tokens of [split()] are not empty and hold no whitespace. *)
Lemma split_ws_go_tokens (s : pystr) :
  forall cur, forallb nonspace cur = true ->
  Forall (fun t => t <> [] /\ forallb nonspace t = true) (split_ws_go s cur).
Proof.
  assert (Hrev : forall cur, cur <> [] -> forallb nonspace cur = true ->
                 rev cur <> [] /\ forallb nonspace (rev cur) = true).
  { intros cur Hne Hcur. split.
    - intros H. apply (f_equal (@rev N)) in H. rewrite rev_involutive in H.
      by apply Hne.
    - apply forallb_forall. intros x Hx. apply in_rev in Hx.
      by apply (proj1 (forallb_forall _ _) Hcur). }
  induction s as [|c s IH]; intros cur Hcur; simpl.
  - destruct cur as [|x cur]; [constructor|].
    constructor; [by apply Hrev|constructor].
  - destruct (isspace c) eqn:E.
    + destruct cur as [|x cur]; [by apply IH|].
      constructor; [by apply Hrev|by apply IH].
    + apply IH. simpl. unfold nonspace at 1. by rewrite E.
Qed.

Lemma split_ws_tokens (s : pystr) :
  Forall (fun t => t <> [] /\ forallb nonspace t = true) (split_ws s).
Proof. by apply split_ws_go_tokens. Qed.

Lemma lstrip_nonspace (t : pystr) :
  forallb nonspace t = true -> lstrip_by isspace t = t.
Proof.
  destruct t as [|c t]; [reflexivity|]. simpl. unfold nonspace at 1.
  destruct (isspace c); [discriminate|reflexivity].
Qed.

Lemma strip_token (t : pystr) : forallb nonspace t = true -> strip t = t.
Proof.
  intros Ht. unfold strip, strip_by, rstrip_by.
  rewrite (lstrip_nonspace t Ht), lstrip_nonspace, rev_involutive; [done|].
  apply forallb_forall. intros x Hx. apply in_rev in Hx.
  by apply (proj1 (forallb_forall _ _) Ht).
Qed.

(** A token does not start with a prefix that holds a space. *)
Lemma removeprefix_token (p t : pystr) :
  forallb nonspace p = false -> forallb nonspace t = true ->
  removeprefix p t = t.
Proof.
  intros Hp Ht. unfold removeprefix.
  destruct (startswith p t) eqn:E; [|reflexivity].
  apply startswith_inv in E. rewrite E, forallb_app, Hp in Ht. discriminate.
Qed.

(** A line that holds the marker keeps it through [strip],
    [removeprefix] and the joining of its tokens: the test of
    [_process_bill] finds it. *)
Lemma withdrawn_marker_found (line : pystr) :
  isin (str "WITHDRAWN") line = true ->
  isin (str "WITHDRAWN")
    (join [] (split_ws (removeprefix (str "Bill No. ") (strip line)))) = true.
Proof.
  intros H. rewrite join_split_ws.
  assert (Hs : isin (str "WITHDRAWN") (List.filter nonspace (strip line)) = true).
  { rewrite filter_strip. apply isin_inv in H as (pre & post & ->).
    rewrite !List.filter_app.
    change (List.filter nonspace (str "WITHDRAWN")) with (str "WITHDRAWN").
    apply isin_intro. }
  unfold removeprefix.
  destruct (startswith (str "Bill No. ") (strip line)) eqn:E; [|exact Hs].
  apply startswith_inv in E. rewrite E, List.filter_app in Hs.
  exact Hs.
Qed.

Section WithdrawnClaims.
Context {datetime : Type}.
Variable html : pystr -> pystr -> result dom.
Variable py_title : pystr -> pystr.
Variable add_document_link :
  Bill datetime -> pystr -> option pystr -> result (Bill datetime).

(** C7.  For a bill whose identifier line holds WITHDRAWN the withdrawal
    branch is taken, and it looks the details up with
    [self._get_details], a method the class does not have: once the
    fragment shows an identifier line and a first link, [_process_bill]
    raises [AttributeError].  It emits no action and yields no record. *)
Theorem withdrawn_bill_raises (session bill root_url : pystr) (xml : dom)
    (line bill_link : pystr) :
  html bill root_url = Ok xml ->
  getitem (strong_text xml) 0 = Ok (Some line) ->
  isin (str "WITHDRAWN") line = true ->
  getitem (a_href xml) 0 = Ok bill_link ->
  _process_bill html py_title add_document_link
    (_get_details (datetime := datetime)) session bill root_url
  = Raise AttributeError.
Proof.
  intros Hxml Hstrong Hline Hlink.
  pose proof (withdrawn_marker_found line Hline) as Hfound.
  pose proof (split_ws_tokens (removeprefix (str "Bill No. ") (strip line)))
    as Htok.
  destruct (split_ws (removeprefix (str "Bill No. ") (strip line)))
    as [|name rest] eqn:Hparts; [discriminate|].
  unfold _process_bill. rewrite Hxml. cbn [bind]. rewrite Hstrong.
  cbn [bind attr]. rewrite Hparts.
  rewrite getitem_cons_0. cbn [bind]. rewrite Hlink. cbn [bind].
  rewrite Hfound. reflexivity.
Qed.

End WithdrawnClaims.

Lemma withdrawn_bill_raises_witness :
  _process_bill Sample.html Sample.py_title Sample.add_document_link
    _get_details (str "37th") Sample.withdrawn_fragment Sample.bills_url
  = Raise AttributeError.
Proof.
  eapply (withdrawn_bill_raises Sample.html Sample.py_title
            Sample.add_document_link (str "37th") Sample.withdrawn_fragment
            Sample.bills_url); vm_compute; reflexivity.
Defined.

(** ** Cutting at a separator *)

Lemma startswith_app_long (p u v : pystr) :
  length p <= length u -> startswith p (u ++ v) = startswith p u.
Proof.
  revert u. induction p as [|a p IH]; intros u Hlen; [reflexivity|].
  destruct u as [|b u]; simpl in *; [lia|].
  rewrite IH by lia. reflexivity.
Qed.

Lemma startswith_app_mono (p u v : pystr) :
  startswith p u = true -> startswith p (u ++ v) = true.
Proof.
  revert u. induction p as [|a p IH]; intros u; [reflexivity|].
  destruct u as [|b u]; simpl; [discriminate|].
  intros H. apply andb_true_iff in H as [-> H]. by rewrite IH.
Qed.

(** The fuel of [split] is enough: more fuel changes nothing. *)
Lemma split_go_fuel (sep : pystr) (n : nat) :
  sep <> [] ->
  forall m s cur, length s <= n -> length s <= m ->
  split_go n sep s cur = split_go m sep s cur.
Proof.
  intros Hsep. induction n as [|n IH]; intros m s cur Hn Hm.
  - destruct s; simpl in Hn; [|lia]. destruct m; simpl; by rewrite ?app_nil_r.
  - destruct m as [|m].
    + destruct s; simpl in Hm; [|lia]. simpl. by rewrite app_nil_r.
    + simpl. destruct s as [|c s]; [reflexivity|]. simpl in Hn, Hm.
      destruct (startswith sep (c :: s)).
      * f_equal. destruct sep as [|x sep]; [done|]. simpl.
        apply IH; rewrite length_drop; lia.
      * apply IH; lia.
Qed.

(** A text without the separator is a single piece. *)
Lemma split_go_absent (sep : pystr) (s : pystr) :
  forall n cur, length s <= n -> isin sep s = false ->
  split_go n sep s cur = [rev cur ++ s].
Proof.
  induction s as [|c s IH]; intros n cur Hn Hs.
  - destruct n; simpl; by rewrite ?app_nil_r.
  - destruct n as [|n]; [reflexivity|]. simpl in Hn.
    cbn [isin] in Hs. apply orb_false_iff in Hs as [Hc Hs].
    cbn [split_go]. rewrite Hc, IH by (done || lia).
    simpl. by rewrite <- app_assoc.
Qed.

Lemma split_absent (sep s : pystr) : isin sep s = false -> split sep s = [s].
Proof. intros H. unfold split. by rewrite split_go_absent. Qed.

(** A text cut at the first separator: the piece before it, then the
    pieces of what follows.  No occurrence of the separator starts in the
    first piece. *)
Lemma split_go_first (sep a b : pystr) :
  sep <> [] ->
  forall n cur, length (a ++ sep ++ b) <= n ->
  isin sep (a ++ removelast sep) = false ->
  split_go n sep (a ++ sep ++ b) cur = (rev cur ++ a) :: split sep b.
Proof.
  intros Hsep. induction a as [|c a IH]; intros n cur Hn Ha.
  - destruct sep as [|x sep]; [done|]. destruct n as [|n]; [simpl in Hn; lia|].
    simpl in Hn. rewrite length_app in Hn.
    change ([] ++ (x :: sep) ++ b) with (x :: sep ++ b).
    cbn [split_go].
    change (x :: sep ++ b) with ((x :: sep) ++ b).
    rewrite startswith_app, drop_app_length, app_nil_r.
    f_equal. unfold split. apply split_go_fuel; [done|lia|lia].
  - destruct n as [|n]; [simpl in Hn; lia|]. simpl in Hn.
    change ((c :: a) ++ sep ++ b) with (c :: a ++ sep ++ b).
    cbn [split_go].
    change ((c :: a) ++ removelast sep) with (c :: a ++ removelast sep) in Ha.
    cbn [isin] in Ha. apply orb_false_iff in Ha as [Hc Ha].
    assert (Hstart : startswith sep (c :: a ++ sep ++ b) = false).
    { assert (Hcut : c :: a ++ sep ++ b =
                     (c :: a ++ removelast sep) ++ [List.last sep 0%N] ++ b).
      { rewrite (app_removelast_last 0%N Hsep) at 1.
        simpl. by rewrite <- !app_assoc. }
      rewrite Hcut, startswith_app_long; [exact Hc|].
      simpl. rewrite length_app, removelast_firstn_len, length_take.
      destruct sep as [|x sep]; [done|]. simpl. lia. }
    rewrite Hstart, IH by (done || lia).
    simpl. by rewrite <- app_assoc.
Qed.

Lemma split_first (sep a b : pystr) :
  sep <> [] -> isin sep (a ++ removelast sep) = false ->
  split sep (a ++ sep ++ b) = a :: split sep b.
Proof. intros Hsep Ha. unfold split. by rewrite split_go_first. Qed.




(** ** The resolution block parser *)




Section ResolutionParser.
Context {datetime : Type}.
Variable html : pystr -> pystr -> result dom.
Variable py_title : pystr -> pystr.
Variable get_details : pystr -> result (gmap string (pyval datetime)).

(** [_process_resolution] is its stages in sequence. *)
Lemma process_resolution_stages (session bill root_url : pystr) :
  _process_resolution html py_title get_details session bill root_url =
  let* head :=
    resolution_head (datetime := datetime) html py_title session bill
      root_url in
  let '(bill_link, bill_obj, sponsors) := head in
  let* tail := result_tail sponsors in
  let '(sponsors, result, result_date) := tail in
  let bill_obj :=
    if truthy result && truthy result_date
    then add_action bill_obj
           (match result with PStr s => s | _ => [] end) result_date PNone
    else bill_obj in
  let* bill_obj := add_sponsors bill_obj sponsors in
  let* details := get_details bill_link in
  resolution_actions bill_obj details.
Proof.
  unfold _process_resolution, resolution_head.
  destruct (html bill root_url) as [xml|]; [|reflexivity]. simpl.
  destruct (getitem (a_text xml) 0) as [first_a|]; [|reflexivity]. simpl.
  destruct (attr first_a) as [text|]; [|reflexivity]. simpl.
  destruct (getitem (split_ws _) 0) as [part|]; [|reflexivity]. simpl.
  destruct (getitem (a_href xml) 0) as [bill_link|]; [|reflexivity]. simpl.
  destruct (attr (search _ _)) as [m|]; [|reflexivity]. simpl.
  destruct (attr (group1 m)) as [description|]; [|reflexivity]. simpl.
  destruct (sponsors_of bill) as [sponsors|]; reflexivity.
Qed.

(** The record [resolution_head] builds is a resolution with no action and
    no sponsorship yet; the entries are those of the sponsor block. *)
Lemma resolution_head_fields (session bill root_url bill_link : pystr)
    (bill_obj : Bill datetime) (sponsors : list pystr) :
  resolution_head html py_title session bill root_url
    = Ok (bill_link, bill_obj, sponsors) ->
  sponsors_of bill = Ok sponsors /\
  classification bill_obj = str "resolution" /\
  actions bill_obj = [] /\ sponsorships bill_obj = [] /\
  documents bill_obj = [].
Proof.
  unfold resolution_head. intros H.
  apply bind_Ok_inv in H as (xml & _ & H).
  apply bind_Ok_inv in H as (first_a & _ & H).
  apply bind_Ok_inv in H as (text & _ & H).
  apply bind_Ok_inv in H as (part & _ & H).
  apply bind_Ok_inv in H as (link & _ & H).
  apply bind_Ok_inv in H as (m & _ & H).
  apply bind_Ok_inv in H as (description & _ & H).
  apply bind_Ok_inv in H as (sps & Hsps & H).
  injection H as <- <- <-. by repeat split.
Qed.

(** The result tail of a list whose last entry holds a [-]. *)
Lemma result_tail_dash (init : list pystr) (last_entry : pystr) :
  isin (str "-") last_entry = true ->
  result_tail (datetime := datetime) (init ++ [last_entry]) =
  let* halves := unpack2 (split (str "-") last_entry) in
  let* tokens := unpack2 (split_ws (snd halves)) in
  Ok (init ++ [fst halves], PStr (fst tokens), PStr (snd tokens)).
Proof.
  intros Hdash. unfold result_tail.
  rewrite getitem_last. cbn [bind]. rewrite Hdash.
  destruct (unpack2 (split (str "-") last_entry)) as [halves|]; [|reflexivity].
  cbn [bind].
  destruct (unpack2 (split_ws (snd halves))) as [tokens|]; [|reflexivity].
  cbn [bind]. do 3 f_equal.
  rewrite length_app. simpl.
  rewrite insert_app_r_alt by lia.
  replace (length init + 1 - 1 - length init) with 0 by lia. reflexivity.
Qed.

Lemma result_tail_no_dash (init : list pystr) (last_entry : pystr) :
  isin (str "-") last_entry = false ->
  result_tail (datetime := datetime) (init ++ [last_entry]) =
  Ok (init ++ [last_entry], PNone, PNone).
Proof.
  intros Hdash. unfold result_tail.
  rewrite getitem_last. cbn [bind]. by rewrite Hdash.
Qed.

Lemma result_tail_nil :
  result_tail (datetime := datetime) [] = Raise IndexError.
Proof. reflexivity. Qed.

(** The actions of a resolution leave the sponsorships alone and only add
    actions. *)
Lemma resolution_actions_fields (b b' : Bill datetime)
    (details : gmap string (pyval datetime)) :
  resolution_actions b details = Ok b' ->
  sponsorships b' = sponsorships b /\
  exists more, actions b' = actions b ++ more.
Proof.
  unfold resolution_actions. intros H.
  apply bind_Ok_inv in H as (vi & _ & H).
  apply bind_Ok_inv in H as (vp & _ & H).
  apply bind_Ok_inv in H as (b1 & H1 & H).
  apply bind_Ok_inv in H as (va & _ & H).
  assert (S1 : sponsorships b1 = sponsorships b /\
               exists more, actions b1 = actions b ++ more).
  { destruct (truthy vp).
    - apply bind_Ok_inv in H1 as (date & _ & H1). injection H1 as <-.
      destruct (truthy vi); simpl; (split; [done|]);
        rewrite <- ?app_assoc; eauto.
    - injection H1 as <-.
      destruct (truthy vi); simpl; (split; [done|]);
        [eauto|exists []; by rewrite app_nil_r]. }
  destruct S1 as (Hs1 & more1 & Ha1).
  destruct (truthy va).
  - apply bind_Ok_inv in H as (date & _ & H). injection H as <-.
    simpl. rewrite Hs1, Ha1, <- app_assoc. eauto.
  - injection H as <-. eauto.
Qed.


End ResolutionParser.


(** ** The result tail of the end-to-end scenario *)

Lemma adopted_entry_halves :
  split (str "-") Sample.adopted_entry = [str "J. Doe "; str " ADOPTED 01/02/20"].
Proof. vm_compute. reflexivity. Qed.

Lemma adopted_entry_tokens :
  split_ws (str " ADOPTED 01/02/20") = [str "ADOPTED"; str "01/02/20"].
Proof. vm_compute. reflexivity. Qed.

Lemma add_sponsors_names {datetime} (b b' : Bill datetime)
    (sponsors : list pystr) :
  add_sponsors b sponsors = Ok b' ->
  List.map sp_name (sponsorships b') =
  List.map sp_name (sponsorships b) ++ sponsors.
Proof.
  intros H. apply add_sponsors_spec in H as (first & rest & -> & Hs & _).
  rewrite Hs, List.map_app. simpl. rewrite List.map_map. simpl.
  by rewrite List.map_id.
Qed.

Section ResultTailClaims.
Context {datetime : Type}.
Variable html : pystr -> pystr -> result dom.
Variable py_title : pystr -> pystr.
Variable get_details : pystr -> result (gmap string (pyval datetime)).

(** C5.  For a resolution whose last sponsor entry is
    [J. Doe - ADOPTED 01/02/20], every record the parser yields has the
    action ADOPTED with the date text [01/02/20] as its first action, and
    the names of its sponsors end in [J. Doe ] with the space that stood
    before the [-]: the name cut off at the [-] is not stripped, unlike
    every other entry of the sponsor block. *)
Theorem adopted_tail_record (session bill root_url bill_link : pystr)
    (bill_obj record : Bill datetime) (init : list pystr) :
  resolution_head html py_title session bill root_url
    = Ok (bill_link, bill_obj, init ++ [Sample.adopted_entry]) ->
  _process_resolution html py_title get_details session bill root_url
    = Ok record ->
  List.map sp_name (sponsorships record) = init ++ [str "J. Doe "] /\
  str "J. Doe " <> str "J. Doe" /\
  exists more,
    actions record =
    MkAction (str "ADOPTED") (PStr (str "01/02/20")) PNone :: more.
Proof.
  intros Hhead Hrec.
  destruct (resolution_head_fields html py_title _ _ _ _ _ _ Hhead)
    as (_ & _ & Hacts & Hsps & _).
  rewrite process_resolution_stages, Hhead in Hrec. cbn [bind] in Hrec.
  rewrite result_tail_dash in Hrec by (vm_compute; reflexivity).
  rewrite adopted_entry_halves in Hrec. cbn [unpack2 bind snd fst] in Hrec.
  rewrite adopted_entry_tokens in Hrec. cbn [unpack2 bind snd fst] in Hrec.
  change (truthy (PStr (str "ADOPTED")) && truthy (PStr (str "01/02/20")))
    with true in Hrec.
  cbv iota in Hrec.
  apply bind_Ok_inv in Hrec as (b1 & Hb1 & Hrec).
  apply bind_Ok_inv in Hrec as (details & _ & Hrec).
  apply resolution_actions_fields in Hrec as (Hs2 & more & Ha2).
  pose proof (add_sponsors_names _ _ _ Hb1) as Hnames.
  apply add_sponsors_spec in Hb1 as (first & rest & _ & _ & Ha1 & _).
  split; [|split].
  - rewrite Hs2, Hnames. simpl. by rewrite Hsps.
  - discriminate.
  - exists more. rewrite Ha2, Ha1. simpl. by rewrite Hacts.
Qed.

End ResultTailClaims.

Lemma adopted_tail_record_witness :
  exists record,
    _process_resolution Sample.html Sample.py_title
      (_get_resolution_details Sample.parse_date Sample.pdf_text)
      (str "37th") Sample.res_fragment Sample.resolutions_url = Ok record /\
    List.map sp_name (sponsorships record)
      = [str "Jane Roe"; str "J. Doe "] /\
    actions record = [MkAction (str "ADOPTED") (PStr (str "01/02/20")) PNone].
Proof.
  eexists. split; [vm_compute; reflexivity|].
  split.
  - eapply (adopted_tail_record Sample.html Sample.py_title
              (_get_resolution_details Sample.parse_date Sample.pdf_text)
              (str "37th") Sample.res_fragment Sample.resolutions_url
              _ _ _ [str "Jane Roe"]).
    + vm_compute. reflexivity.
    + vm_compute. reflexivity.
  - vm_compute. reflexivity.
Defined.

(** ** The sponsor block and the yielded record *)

Lemma sponsors_of_block (bill : pystr) :
  sponsors_of bill =
  let* block := sponsor_block bill in Ok (sponsor_names block).
Proof.
  unfold sponsors_of, sponsor_block.
  destruct (attr (search sponsors_match_re bill)) as [m|]; [|reflexivity].
  simpl. destruct (attr (group1 m)); reflexivity.
Qed.

(** A resolution is yielded only after the details were looked up and
    found. *)
Lemma process_resolution_needs_details {datetime}
    (html : pystr -> pystr -> result dom) (py_title : pystr -> pystr)
    (get_details : pystr -> result (gmap string (pyval datetime)))
    (session bill root_url : pystr) (record : Bill datetime) :
  _process_resolution html py_title get_details session bill root_url
    = Ok record ->
  exists url details, get_details url = Ok details.
Proof.
  rewrite process_resolution_stages. intros H.
  apply bind_Ok_inv in H as ([[bill_link bill_obj] sponsors] & _ & H).
  apply bind_Ok_inv in H as ([[sponsors' result] result_date] & _ & H).
  apply bind_Ok_inv in H as (b1 & _ & H).
  apply bind_Ok_inv in H as (details & Hd & _). eauto.
Qed.

Section NoRecord.
Context {datetime : Type}.
Variable html : pystr -> pystr -> result dom.
Variable py_title : pystr -> pystr.
Variable add_document_link :
  Bill datetime -> pystr -> option pystr -> result (Bill datetime).

(** C6.  Both parsers look the details up with [self._get_details] before
    they yield, and the class has no method of this name: whatever the
    fragment and its sponsor block, neither [_process_bill] nor
    [_process_resolution] yields a record.  The sponsorships built from
    the sponsor block are lost with the error: no record has a primary
    sponsor. *)
Theorem parsers_yield_no_record (session bill root_url : pystr)
    (record : Bill datetime) :
  _process_bill html py_title add_document_link _get_details session bill
    root_url <> Ok record /\
  _process_resolution html py_title _get_details session bill root_url
    <> Ok record.
Proof.
  split; intros H.
  - apply process_bill_needs_details in H as (url & details & Hd).
    discriminate.
  - apply process_resolution_needs_details in H as (url & details & Hd).
    discriminate.
Qed.

End NoRecord.

(** ** Cutting a page at the comment terminator *)

Lemma startswith_short (p s : pystr) :
  length s < length p -> startswith p s = false.
Proof.
  revert s. induction p as [|a p IH]; intros s Hlen; [simpl in Hlen; lia|].
  destruct s as [|b s]; [reflexivity|]. simpl in *.
  rewrite IH by lia. apply andb_false_r.
Qed.

Lemma isin_short (needle s : pystr) :
  length s < length needle -> isin needle s = false.
Proof.
  induction s as [|c s IH]; intros Hlen; simpl.
  - rewrite startswith_short by done. reflexivity.
  - rewrite startswith_short by done. simpl in Hlen. apply IH. lia.
Qed.

Lemma length_removelast_lt (sep : pystr) :
  sep <> [] -> length (removelast sep) < length sep.
Proof.
  intros Hsep. rewrite removelast_firstn_len, length_take.
  destruct sep; [done|simpl; lia].
Qed.

(** The first occurrence of a text that occurs. *)
Lemma isin_first (sep s : pystr) :
  sep <> [] -> isin sep s = true ->
  exists a b, s = a ++ sep ++ b /\ isin sep (a ++ removelast sep) = false.
Proof.
  intros Hsep. induction s as [|c s IH]; simpl.
  - rewrite orb_false_r. intros H. destruct sep; [done|discriminate].
  - destruct (startswith sep (c :: s)) eqn:Hc.
    + intros _. apply startswith_inv in Hc.
      exists [], (drop (length sep) (c :: s)). split; [exact Hc|].
      apply isin_short. simpl. by apply length_removelast_lt.
    + simpl. intros H. destruct (IH H) as (a & b & -> & Ha).
      exists (c :: a), b. split; [reflexivity|].
      simpl. rewrite Ha, orb_false_r.
      destruct (startswith sep (c :: a ++ removelast sep)) eqn:E; [|done].
      assert (Hcut : c :: a ++ sep ++ b =
                     (c :: a ++ removelast sep) ++ [List.last sep 0%N] ++ b).
      { rewrite (app_removelast_last 0%N Hsep) at 1.
        simpl. by rewrite <- !app_assoc. }
      rewrite Hcut, (startswith_app_mono _ _ _ E) in Hc. discriminate.
Qed.

(** No occurrence of [-->] ends among its own first two characters. *)
Lemma marker_no_straddle (a : pystr) :
  isin marker a = false -> isin marker (a ++ removelast marker) = false.
Proof.
  change (removelast marker) with [45%N; 45%N]. change marker with [45%N; 45%N; 62%N].
  induction a as [|c a IH]; [reflexivity|].
  intros H. cbn [isin] in H. apply orb_false_iff in H as [Hc Ha].
  change ((c :: a) ++ [45%N; 45%N]) with (c :: a ++ [45%N; 45%N]).
  cbn [isin]. rewrite (IH Ha), orb_false_r.
  destruct a as [|d [|e a]]; simpl in *;
    rewrite ?andb_false_r; try reflexivity; exact Hc.
Qed.

Lemma marker_nonempty : marker <> [].
Proof. discriminate. Qed.

(** Cutting at [-->] distributes over a marker between two texts. *)
Lemma split_marker_app (rest : pystr) :
  forall pre, split marker (pre ++ marker ++ rest)
              = split marker pre ++ split marker rest.
Proof.
  intros pre. remember (length pre) as n eqn:Hn.
  revert pre Hn. induction n as [n IH] using lt_wf_ind. intros pre ->.
  destruct (isin marker pre) eqn:Hin.
  - apply (isin_first _ _ marker_nonempty) in Hin as (a & b & -> & Ha).
    rewrite <- !app_assoc.
    rewrite (split_first marker a (b ++ marker ++ rest) marker_nonempty Ha).
    rewrite (split_first marker a b marker_nonempty Ha).
    rewrite (IH (length b)); [reflexivity| |reflexivity].
    rewrite !length_app. change (length marker) with 3. lia.
  - rewrite (split_absent _ _ Hin).
    apply split_first; [exact marker_nonempty|by apply marker_no_straddle].
Qed.

Lemma getitem_second_last {A} (l : list A) (a b : A) :
  getitem (l ++ [a; b]) (-2) = Ok a.
Proof.
  unfold getitem. simpl. rewrite length_app. simpl.
  destruct (Z.of_nat (length l + 2) + -2 <? 0)%Z eqn:Hn;
    [apply Z.ltb_lt in Hn; lia|].
  replace (Z.to_nat (Z.of_nat (length l + 2) + -2)) with (length l + 0) by lia.
  by rewrite lookup_app_r, Nat.add_comm, Nat.add_sub by lia.
Qed.

(** ** The record-boundary patterns *)

Section BracketMatch.
Context {R : Type}.

(** A literal matches where the text starts with it. *)
Lemma rmatch_lit (q : pystr) :
  q <> [] ->
  forall (b : bool) (s : pystr) (cap : option pystr)
         (k : bool -> pystr -> option pystr -> option R),
  rmatch (lit q) b s cap k =
  if startswith q s then k false (drop (length q) s) cap else None.
Proof.
  induction q as [|c q IH]; [done|]. intros _ b s cap k.
  destruct q as [|c' q'].
  - destruct s as [|c0 s]; [reflexivity|]. simpl.
    rewrite andb_true_r, drop_0. reflexivity.
  - change (lit (c :: c' :: q')) with (Cat (Cls (eqc c)) (lit (c' :: q'))).
    cbn [rmatch]. destruct s as [|c0 s]; [reflexivity|].
    cbn [startswith]. destruct (eqc c c0); [|reflexivity].
    rewrite IH by discriminate. reflexivity.
Qed.

(** A lazy run of any characters stops at the first place where what
    follows starts with the closing text. *)
Lemma rep_lazy_find (e : pystr) (F : pystr -> R)
    (k : bool -> pystr -> option R) :
  (forall b t, k b t = if startswith e t then Some (F t) else None) ->
  forall t b,
  rep false any_char 0 None b t k =
  match find e t with
  | Some i => Some (F (drop i t))
  | None => None
  end.
Proof.
  intros Hk. induction t as [|c t IH]; intros b.
  - simpl. rewrite Hk. by destruct (startswith e []).
  - cbn [rep find]. rewrite Hk.
    destruct (startswith e (c :: t)); [reflexivity|].
    cbn [orelse any_char pred fmap option_fmap option_map].
    rewrite IH. by destruct (find e t).
Qed.

End BracketMatch.

Lemma startswith_length (p s : pystr) :
  startswith p s = true -> length p <= length s.
Proof.
  intros H. apply startswith_inv in H. rewrite H.
  rewrite length_app. lia.
Qed.

Lemma find_Some (e t : pystr) (i : nat) :
  find e t = Some i ->
  startswith e (drop i t) = true /\ i + length e <= length t.
Proof.
  revert i. induction t as [|c t IH]; intros i; cbn [find].
  - destruct (startswith e []) eqn:E; [|discriminate].
    intros [= <-]. split; [exact E|]. apply startswith_length in E. simpl in *. lia.
  - destruct (startswith e (c :: t)) eqn:E.
    + intros [= <-]. split; [exact E|]. apply startswith_length in E. simpl in *. lia.
    + destruct (find e t) as [j|]; [|discriminate]. intros [= <-].
      destruct (IH j eq_refl) as [H1 H2]. split; [exact H1|simpl; lia].
Qed.

(** More text after a found occurrence does not move it. *)
Lemma find_app (e t rest : pystr) (i : nat) :
  find e t = Some i -> find e (t ++ rest) = Some i.
Proof.
  revert i. induction t as [|c t IH]; intros i; cbn [find].
  - destruct (startswith e []) eqn:E; [|discriminate].
    intros [= <-]. destruct e; [|discriminate]. by destruct rest.
  - change ((c :: t) ++ rest) with (c :: t ++ rest). cbn [find].
    destruct (startswith e (c :: t)) eqn:E.
    + intros [= <-].
      change (c :: t ++ rest) with ((c :: t) ++ rest).
      by rewrite (startswith_app_mono _ _ _ E).
    + destruct (find e t) as [j|] eqn:Hj; [|discriminate]. intros [= <-].
      rewrite (IH j eq_refl).
      apply find_Some in Hj as [_ Hlen].
      change (c :: t ++ rest) with ((c :: t) ++ rest).
      rewrite startswith_app_long, E by (simpl; lia). reflexivity.
Qed.

(** The first occurrence, when none starts earlier. *)
Lemma find_first (e body rest : pystr) :
  e <> [] -> isin e (body ++ removelast e) = false ->
  find e (body ++ e ++ rest) = Some (length body).
Proof.
  intros He. induction body as [|c body IH]; intros H.
  - simpl. destruct (e ++ rest) eqn:E; simpl;
      rewrite <- E, startswith_app; reflexivity.
  - change ((c :: body) ++ e ++ rest) with (c :: body ++ e ++ rest).
    change ((c :: body) ++ removelast e) with (c :: body ++ removelast e) in H.
    cbn [isin] in H. apply orb_false_iff in H as [Hc H].
    cbn [find]. rewrite (IH H). simpl.
    assert (Hcut : c :: body ++ e ++ rest =
                   (c :: body ++ removelast e) ++ [List.last e 0%N] ++ rest).
    { rewrite (app_removelast_last 0%N He) at 1.
      simpl. by rewrite <- !app_assoc. }
    rewrite Hcut, startswith_app_long, Hc; [reflexivity|].
    simpl. rewrite length_app, removelast_firstn_len, length_take. lia.
Qed.

(** What a record-boundary pattern matches at a position: the opening
    text, then everything up to and with the first closing text. *)
Lemma match_at_bracket (q e : pystr) (b : bool) (s : pystr) :
  q <> [] -> e <> [] ->
  match_at (bracket q e) b s =
  if startswith q s
  then match find e (drop (length q) s) with
       | Some i =>
           let n := length q + i + length e in
           Some (MkMatch (take n s) (drop n s) (Some (take n s)))
       | None => None
       end
  else None.
Proof.
  intros Hq He. unfold match_at, bracket. cbn [rmatch].
  rewrite rmatch_lit by done.
  destruct (startswith q s) eqn:Hs; [|reflexivity].
  rewrite (rep_lazy_find e
    (fun t => let n := length s - length (drop (length e) t) in
              MkMatch (take n s) (drop (length e) t) (Some (take n s)))).
  2: { intros b' t. rewrite rmatch_lit by done. reflexivity. }
  destruct (find e (drop (length q) s)) as [i|] eqn:Hi; [|reflexivity].
  apply find_Some in Hi as [_ Hlen]. rewrite length_drop in Hlen.
  apply startswith_length in Hs.
  cbv zeta. rewrite !drop_drop, !length_drop.
  replace (length s - (length s - (length q + (i + length e))))
    with (length q + i + length e) by lia.
  by rewrite (Nat.add_assoc (length q)).
Qed.

Lemma match_at_bracket_none (q e : pystr) (b : bool) (s : pystr) :
  q <> [] -> e <> [] -> startswith q s = false ->
  match_at (bracket q e) b s = None.
Proof. intros Hq He Hs. by rewrite match_at_bracket, Hs. Qed.

(** A text the pattern matches in full is matched in the same way when more
    text follows it. *)
Lemma match_at_bracket_app (q e : pystr) (b b' : bool) (f rest : pystr)
    (g : option pystr) :
  q <> [] -> e <> [] ->
  match_at (bracket q e) b f = Some (MkMatch f [] g) ->
  match_at (bracket q e) b' (f ++ rest) = Some (MkMatch f rest (Some f)).
Proof.
  intros Hq He. rewrite !match_at_bracket by done.
  destruct (startswith q f) eqn:Hs; [|discriminate].
  rewrite (startswith_app_mono _ _ _ Hs).
  pose proof (startswith_length _ _ Hs) as Hlen.
  destruct (find e (drop (length q) f)) as [i|] eqn:Hi; [|discriminate].
  rewrite drop_app_le by done. rewrite (find_app _ _ _ _ Hi).
  apply find_Some in Hi as [_ Hi]. rewrite length_drop in Hi.
  cbv zeta. intros [= Htake Hdrop _].
  assert (Hn : length q + i + length e = length f).
  { apply (f_equal length) in Hdrop. rewrite length_drop in Hdrop.
    simpl in Hdrop. lia. }
  rewrite Hn, take_app_length, drop_app_length. reflexivity.
Qed.

Lemma in_order_cons (c : N) (fs : list pystr) (s : pystr) :
  in_order fs s -> in_order fs (c :: s).
Proof.
  destruct fs as [|f fs]; [done|].
  intros (before & after & -> & H). by exists (c :: before), after.
Qed.

Section FindallBracket.
Variables q e : pystr.
Hypothesis Hq : q <> [].
Hypothesis He : e <> [].

(** The fragments [findall] gives lie in the text in the order given. *)
Lemma findall_go_in_order :
  forall n b s, in_order (findall_go n (bracket q e) b s) s.
Proof.
  induction n as [|n IH]; intros b s; [exact I|].
  cbn [findall_go]. rewrite match_at_bracket by done.
  destruct (startswith q s) eqn:Hs.
  - destruct (find e (drop (length q) s)) as [i|].
    + cbv zeta. cbn [m_text m_rest m_group default from_option id].
      exists [], (drop (length q + i + length e) s).
      split; [by rewrite app_nil_l, take_drop|].
      destruct (take (length q + i + length e) s) eqn:Ht.
      * destruct s as [|c s]; [exact I|].
        destruct q; [done|discriminate].
      * apply IH.
    + destruct s as [|c s]; [exact I|]. apply in_order_cons, IH.
  - destruct s as [|c s]; [exact I|]. apply in_order_cons, IH.
Qed.

Lemma findall_go_nil (n : nat) (b : bool) :
  findall_go n (bracket q e) b [] = [].
Proof.
  destruct n as [|n]; [reflexivity|]. cbn [findall_go].
  rewrite match_at_bracket_none; [reflexivity|done|done|by destruct q].
Qed.

(** A text in which the opening text cannot start is passed over. *)
Lemma findall_go_skip (sep rest : pystr) :
  Forall (fun c => head q <> Some c) sep ->
  forall n b, length (sep ++ rest) < n ->
  exists b', findall_go n (bracket q e) b (sep ++ rest)
             = findall_go (n - length sep) (bracket q e) b' rest.
Proof.
  induction 1 as [|c sep Hc _ IH]; intros n b Hn.
  - exists b. by rewrite Nat.sub_0_r.
  - destruct n as [|n]; [simpl in Hn; lia|].
    change ((c :: sep) ++ rest) with (c :: sep ++ rest).
    cbn [findall_go]. rewrite match_at_bracket_none; [|done|done|].
    + simpl in Hn. destruct (IH n false) as [b' ->]; [lia|]. by exists b'.
    + destruct q as [|c0 q']; [done|]. simpl in *.
      destruct (eqc c0 c) eqn:E; [|reflexivity].
      apply eqc_eq in E. by subst.
Qed.

(** Fragments the pattern matches in full, joined by a separator in which
    the opening text cannot start, are found again one by one. *)
Lemma findall_go_join (sep : pystr) :
  Forall (fun c => head q <> Some c) sep ->
  forall fragments : list pystr,
  Forall (fun f => match_at (bracket q e) true f
                   = Some (MkMatch f [] (Some f))) fragments ->
  forall n b, length (join sep fragments) < n ->
  findall_go n (bracket q e) b (join sep fragments) = fragments.
Proof.
  intros Hsep. induction 1 as [|f fs Hf _ IH]; intros n b Hn.
  - apply findall_go_nil.
  - destruct n as [|n]; [lia|].
    assert (Hne : f <> []).
    { intros ->. rewrite match_at_bracket in Hf by done.
      destruct q; [done|discriminate]. }
    destruct fs as [|f2 fs].
    + cbn [join] in *. cbn [findall_go].
      rewrite <- (app_nil_r f) at 1.
      rewrite (match_at_bracket_app q e true b f [] _ Hq He Hf).
      cbn [m_text m_rest m_group default from_option id].
      destruct f; [done|]. by rewrite findall_go_nil.
    + change (join sep (f :: f2 :: fs))
        with (f ++ sep ++ join sep (f2 :: fs)) in *.
      cbn [findall_go].
      rewrite (match_at_bracket_app q e true b f _ _ Hq He Hf).
      cbn [m_text m_rest m_group default from_option id].
      rewrite !length_app in Hn.
      destruct (findall_go_skip sep (join sep (f2 :: fs)) Hsep n false)
        as [b' ->].
      { rewrite length_app. destruct f; [done|]. cbn [length] in Hn. lia. }
      destruct f; [done|]. f_equal. apply IH. cbn [length] in Hn. lia.
Qed.

Lemma findall_join (sep : pystr) (fragments : list pystr) :
  Forall (fun c => head q <> Some c) sep ->
  Forall (fun f => match_at (bracket q e) true f
                   = Some (MkMatch f [] (Some f))) fragments ->
  findall (bracket q e) (join sep fragments) = fragments.
Proof. intros Hsep Hfs. unfold findall. apply findall_go_join; [done|done|lia]. Qed.

End FindallBracket.

Lemma resolution_fragments_between (pre content post : pystr) :
  isin marker content = false -> isin marker post = false ->
  resolution_fragments (pre ++ marker ++ content ++ marker ++ post)
  = Ok (findall res_match_re content).
Proof.
  intros Hc Hp. unfold resolution_fragments.
  rewrite split_marker_app.
  rewrite <- (app_nil_l (content ++ marker ++ post)), app_nil_l.
  rewrite (split_marker_app post content).
  rewrite (split_absent _ _ Hc), (split_absent _ _ Hp).
  change ([content] ++ [post]) with [content; post].
  rewrite getitem_second_last. reflexivity.
Qed.

Lemma resolution_fragments_one_marker (a b : pystr) :
  isin marker a = false -> isin marker b = false ->
  resolution_fragments (a ++ marker ++ b) = Ok (findall res_match_re a).
Proof.
  intros Ha Hb. unfold resolution_fragments.
  rewrite split_marker_app, (split_absent _ _ Ha), (split_absent _ _ Hb).
  reflexivity.
Qed.

Lemma resolution_fragments_no_marker (page : pystr) :
  isin marker page = false -> resolution_fragments page = Raise IndexError.
Proof.
  intros H. unfold resolution_fragments. by rewrite (split_absent _ _ H).
Qed.

Lemma p_align_left_nonempty : p_align_left <> [].
Proof. by vm_compute. Qed.

Lemma br_nonempty : str "<br>" <> [].
Proof. by vm_compute. Qed.

Lemma no_angle_no_opener (opener sep : pystr) :
  head opener = Some 60%N ->
  Forall (fun c => c <> 60%N) sep ->
  Forall (fun c => head opener <> Some c) sep.
Proof.
  intros -> Hsep. eapply Forall_impl; [exact Hsep|].
  intros c Hc [= <-]. by apply Hc.
Qed.

(** A page with one [-->] for which the orchestrator does not fail: it
    yields the record of the resolution before the marker. *)
Lemma single_marker_page_scraped :
  length (split marker Sample.single_marker_page) = 2 /\
  exists records,
    scrape Sample.html Sample.py_title
      (fun _ => Ok Sample.single_marker_page)
      (_get_details (datetime := pystr)) (str "37th") = Ok records /\
    length records = 1.
Proof.
  split; [vm_compute; reflexivity|].
  eexists. split; [vm_compute; reflexivity|reflexivity].
Qed.

Section OrchestratorClaims.
Context {datetime : Type}.
Variable html : pystr -> pystr -> result dom.
Variable py_title : pystr -> pystr.
Variable http_get : pystr -> result pystr.
Variable get_details : pystr -> result (gmap string (pyval datetime)).

(** C8, amended.  For a resolution index page that is fetched: with no
    [-->] the orchestrator raises [IndexError] and yields nothing; with
    one [-->] it does not fail, it segments the text before the marker;
    with two or more it segments the content between the second-to-last
    and the last [-->].  It yields one run of the resolution parser per
    matched fragment, and the fragments lie in the content in the order
    yielded. *)
Theorem scrape_segments (session page : pystr) :
  http_get (res_url session) = Ok page ->
  let records_of (doc : pystr) :=
    List.map
      (fun resolution =>
         _process_resolution html py_title get_details session resolution
           (res_url session))
      (findall res_match_re doc) in
  (isin marker page = false ->
   scrape html py_title http_get get_details session = Raise IndexError) /\
  (forall a b,
     page = a ++ marker ++ b ->
     isin marker a = false -> isin marker b = false ->
     scrape html py_title http_get get_details session
       = Ok (records_of a)) /\
  (forall pre content post,
     page = pre ++ marker ++ content ++ marker ++ post ->
     isin marker content = false -> isin marker post = false ->
     scrape html py_title http_get get_details session
       = Ok (records_of content) /\
     in_order (findall res_match_re content) content).
Proof.
  intros Hget records_of. unfold scrape. rewrite Hget. cbn [bind].
  split; [|split].
  - intros Hno. by rewrite resolution_fragments_no_marker.
  - intros a b -> Ha Hb. by rewrite resolution_fragments_one_marker.
  - intros pre content post -> Hc Hp.
    rewrite resolution_fragments_between by done.
    split; [reflexivity|].
    apply findall_go_in_order;
      [exact p_align_left_nonempty|exact br_nonempty].
Qed.

End OrchestratorClaims.

Lemma scrape_segments_witness :
  scrape Sample.html Sample.py_title (fun _ => Ok Sample.index_page)
    (_get_details (datetime := pystr)) (str "37th")
  = Ok (List.map
          (fun resolution =>
             _process_resolution Sample.html Sample.py_title _get_details
               (str "37th") resolution (res_url (str "37th")))
          (findall res_match_re Sample.listing)).
Proof.
  edestruct (scrape_segments Sample.html Sample.py_title
               (fun _ => Ok Sample.index_page)
               (_get_details (datetime := pystr)) (str "37th")
               Sample.index_page eq_refl) as (_ & _ & Hbetween).
  edestruct (Hbetween (str "<html><!-- head --><!-- listing ")
               Sample.listing (str "</html>")) as [Hscrape _].
  - reflexivity.
  - vm_compute. reflexivity.
  - vm_compute. reflexivity.
  - exact Hscrape.
Defined.

(** A fragment the resolution pattern matches in full and that holds a
    [-->] does not come back from a page built around it, with a marker on
    both sides or before it only; a fragment without one does not come back
    from a page with the marker before it only. *)
Lemma marker_inside_fragment :
  match_at res_match_re true Sample.cut_fragment
    = Some (MkMatch Sample.cut_fragment [] (Some Sample.cut_fragment)) /\
  resolution_fragments
    (str "<!-- head " ++ marker ++ join Sample.nl [Sample.cut_fragment]
     ++ marker ++ str "</html>") = Ok [] /\
  resolution_fragments
    (str "<!-- head " ++ marker ++ join Sample.nl [Sample.cut_fragment])
    = Ok [] /\
  resolution_fragments
    (str "<!-- head " ++ marker ++ join Sample.nl [Sample.res_fragment])
    = Ok [].
Proof. repeat split; vm_compute; reflexivity. Qed.

(** C9, amended.  Fragments that the resolution pattern, applied at the
    start of each alone, matches in full, joined by a separator without
    [<], come back from the page that holds the listing between two
    [-->], when neither the listing nor the text after it holds a [-->]:
    the segmenting gives exactly these fragments in this order. *)
Theorem fragments_round_trip (fragments : list pystr)
    (sep pre post : pystr) :
  Forall (fun f => match_at res_match_re true f
                   = Some (MkMatch f [] (Some f))) fragments ->
  Forall (fun c => c <> 60%N) sep ->
  isin marker (join sep fragments) = false ->
  isin marker post = false ->
  resolution_fragments (pre ++ marker ++ join sep fragments ++ marker ++ post)
  = Ok fragments.
Proof.
  intros Hfs Hsep Hlisting Hpost.
  rewrite resolution_fragments_between by done. f_equal.
  change res_match_re with (bracket p_align_left (str "<br>")) in *.
  apply findall_join;
    [exact p_align_left_nonempty|exact br_nonempty| |exact Hfs].
  by apply no_angle_no_opener.
Qed.

Lemma fragments_round_trip_witness :
  resolution_fragments
    (str "<!-- head " ++ marker
     ++ join Sample.nl [Sample.res_fragment; Sample.res_single_fragment]
     ++ marker ++ str "</html>")
  = Ok [Sample.res_fragment; Sample.res_single_fragment].
Proof.
  apply (fragments_round_trip
           [Sample.res_fragment; Sample.res_single_fragment] Sample.nl).
  - repeat constructor; vm_compute; reflexivity.
  - repeat constructor; discriminate.
  - vm_compute. reflexivity.
  - vm_compute. reflexivity.
Defined.

(** * Further properties of the scraper *)

(** ** The text handed to the patterns *)

Lemma text_only_dropped (a b : list (option pystr)) (d : option pystr) :
  keep_node d = false -> text_only (a ++ d :: b) = text_only (a ++ b).
Proof.
  intros Hd. unfold text_only.
  rewrite !List.filter_app. cbn [List.filter]. by rewrite Hd.
Qed.

Section Normalizer.
Context {datetime : Type}.
Variable parse_date : pystr -> result datetime.
Variable pdf_text : pystr -> result (list (option pystr)).

(** X1.  A node without text, with blank text or with a boilerplate text
    changes nothing: a document and the same document without such a node
    give the same details, error or dictionary, in both extractors. *)
Theorem dropped_node_changes_nothing (url url' : pystr)
    (a b : list (option pystr)) (d : option pystr) :
  keep_node d = false ->
  pdf_text url = Ok (a ++ d :: b) ->
  pdf_text url' = Ok (a ++ b) ->
  _get_bill_details parse_date pdf_text url
    = _get_bill_details parse_date pdf_text url' /\
  _get_resolution_details parse_date pdf_text url
    = _get_resolution_details parse_date pdf_text url'.
Proof.
  intros Hd Hu Hu'. unfold _get_bill_details, _get_resolution_details.
  rewrite Hu, Hu'. cbn [bind]. by rewrite (text_only_dropped a b d Hd).
Qed.

End Normalizer.

Lemma dropped_node_changes_nothing_witness :
  let pdf_text (url : pystr) : result (list (option pystr)) :=
    match url with
    | [] => Ok ([Some (str "Received 1/2/2023 3:45 p.m.")]
                ++ Some (str "  Page 1 ") :: [Some (str "Committee on Rules")])
    | _ => Ok ([Some (str "Received 1/2/2023 3:45 p.m.")]
               ++ [Some (str "Committee on Rules")])
    end in
  _get_bill_details Sample.parse_date pdf_text []
    = _get_bill_details Sample.parse_date pdf_text [0%N] /\
  _get_resolution_details Sample.parse_date pdf_text []
    = _get_resolution_details Sample.parse_date pdf_text [0%N].
Proof.
  intros pdf_text.
  apply (dropped_node_changes_nothing Sample.parse_date pdf_text [] [0%N]
           [Some (str "Received 1/2/2023 3:45 p.m.")]
           [Some (str "Committee on Rules")] (Some (str "  Page 1 "))).
  - vm_compute. reflexivity.
  - reflexivity.
  - reflexivity.
Defined.

(** ** The bill extractor *)

Lemma committee_group (text : pystr) (m : rmatched) :
  search committee_re text = Some m ->
  exists c g, group1 m = Some (c :: g) /\ is_one_of (str "cC") c = true.
Proof.
  intros Hm. apply search_go_inv in Hm as (b' & s' & Hm).
  by apply group_starts_in_class in Hm.
Qed.

Section BillExtractor.
Context {datetime : Type}.
Variable parse_date : pystr -> result datetime.

(** X2.  The bill extractor reads the introduction date from the second
    date-time of the text and the referral date from the third date: with
    two date-times and three dates or more, of which these two parse, it
    returns a dictionary with both fields set to them. *)
Theorem bill_details_positions (text x0 x1 y0 y1 y2 : pystr)
    (rest more : list pystr) (d1 d2 : datetime) :
  findall date_time_re text = x0 :: x1 :: rest ->
  findall date_re text = y0 :: y1 :: y2 :: more ->
  parse_date x1 = Ok d1 -> parse_date y2 = Ok d2 ->
  exists details committee,
    bill_details_of_text parse_date text = Ok details /\
    bill_shaped details (PDate d1) (PDate d2) committee.
Proof.
  intros Hx Hy H1 H2. unfold bill_details_of_text.
  rewrite Hx, Hy. cbn [bind getitem length]. simpl.
  rewrite H1. simpl. rewrite H2. simpl.
  destruct (search committee_re text) as [m|] eqn:Hm.
  - destruct (committee_group text m Hm) as (c & g & -> & Hc). simpl.
    eexists _, _. split; [reflexivity|].
    eapply bill_shaped_committee; [by apply collapse_committee_nonempty|].
    eapply bill_shaped_referred, bill_shaped_introduced, bill_shaped_init.
  - eexists _, _. split; [reflexivity|].
    eapply bill_shaped_referred, bill_shaped_introduced, bill_shaped_init.
Qed.

(** X3.  With no date-time and at most two dates in the text the bill
    extractor parses no date: whatever the date parser does, it returns a
    dictionary with the introduction and referral dates unset. *)
Theorem bill_details_without_dates (text : pystr) :
  findall date_time_re text = [] ->
  length (findall date_re text) <= 2 ->
  exists details committee,
    bill_details_of_text parse_date text = Ok details /\
    bill_shaped details PNone PNone committee.
Proof.
  intros Hx Hy. unfold bill_details_of_text. rewrite Hx.
  destruct (2 <? length (findall date_re text)) eqn:E;
    [apply Nat.ltb_lt in E; lia|].
  cbn [bind].
  destruct (search committee_re text) as [m|] eqn:Hm.
  - destruct (committee_group text m Hm) as (c & g & -> & Hc). simpl.
    eexists _, _. split; [reflexivity|].
    eapply bill_shaped_committee; [|apply bill_shaped_init].
    by apply collapse_committee_nonempty.
  - eexists _, _. split; [reflexivity|apply bill_shaped_init].
Qed.

End BillExtractor.

Lemma bill_details_positions_witness :
  exists details committee,
    bill_details_of_text Sample.parse_date (text_only Sample.bill_pdf)
      = Ok details /\
    bill_shaped details
      (PDate (str "1/3/2023" ++ Sample.nl ++ str "9:05 a.m."))
      (PDate (str "1/10/2023")) committee.
Proof.
  eapply (bill_details_positions Sample.parse_date
            (text_only Sample.bill_pdf)); vm_compute; reflexivity.
Defined.

Lemma bill_details_without_dates_witness :
  exists details committee,
    bill_details_of_text (fun _ => Raise ValueError : result pystr)
      (text_only Sample.pdf0) = Ok details /\
    bill_shaped details PNone PNone committee.
Proof.
  apply (bill_details_without_dates (fun _ => Raise ValueError)
           (text_only Sample.pdf0)).
  - vm_compute. reflexivity.
  - vm_compute. lia.
Defined.

Lemma join_tokens_plain (tokens : list pystr) :
  Forall (fun t => t <> [] /\ forallb nonspace t = true) tokens ->
  plain_spaces (join (str " ") tokens).
Proof.
  induction 1 as [|t ts [_ Ht] _ IH]; intros c Hc Hsp.
  - by apply elem_of_nil in Hc.
  - assert (Htok : c ∈ t -> c = 32%N).
    { intros Hin. apply list_elem_of_In in Hin.
      apply (proj1 (forallb_forall _ _) Ht) in Hin.
      unfold nonspace in Hin. rewrite Hsp in Hin. discriminate. }
    destruct ts as [|t2 ts]; [by apply Htok|].
    change (join (str " ") (t :: t2 :: ts))
      with (t ++ [32%N] ++ join (str " ") (t2 :: ts)) in Hc.
    apply elem_of_app in Hc as [Hc|Hc]; [by apply Htok|].
    apply elem_of_app in Hc as [Hc|Hc]; [|by apply IH].
    by apply list_elem_of_singleton in Hc.
Qed.

Section CommitteeName.
Context {datetime : Type}.
Variable parse_date : pystr -> result datetime.

(** X4.  A committee name the bill extractor stores is not empty and is
    made of the words of the match with one plain space between them: it
    holds no line break, no tab and no other whitespace. *)
Theorem committee_single_spaced (text s : pystr)
    (details : gmap string (pyval datetime)) :
  bill_details_of_text parse_date text = Ok details ->
  details !! "Committee" = Some (PStr s) ->
  s <> [] /\ plain_spaces s /\
  exists tokens,
    s = join (str " ") tokens /\
    Forall (fun t => t <> [] /\ forallb nonspace t = true) tokens.
Proof.
  unfold bill_details_of_text. intros H Hs.
  apply bind_Ok_inv in H as (d1 & H1 & H).
  assert (C1 : d1 !! "Committee" = Some PNone).
  { destruct (findall date_time_re text).
    - by injection H1 as <-.
    - apply bind_Ok_inv in H1 as (x & _ & H1).
      apply bind_Ok_inv in H1 as (dt & _ & H1). by injection H1 as <-. }
  apply bind_Ok_inv in H as (d2 & H2 & H).
  assert (C2 : d2 !! "Committee" = Some PNone).
  { destruct (2 <? length (findall date_re text)).
    - apply bind_Ok_inv in H2 as (x & _ & H2).
      apply bind_Ok_inv in H2 as (dt & _ & H2). injection H2 as <-.
      by rewrite lookup_insert_ne.
    - by injection H2 as <-. }
  destruct (search committee_re text) as [m|] eqn:Hm.
  - destruct (committee_group text m Hm) as (c & g & Hg & Hc).
    rewrite Hg in H. simpl in H. injection H as <-.
    rewrite lookup_insert_eq in Hs. injection Hs as <-.
    split; [by apply collapse_committee_nonempty|].
    split; [apply join_tokens_plain, split_ws_tokens|].
    eexists. split; [reflexivity|apply split_ws_tokens].
  - injection H as <-. rewrite C2 in Hs. discriminate.
Qed.

End CommitteeName.

Lemma committee_single_spaced_witness :
  Sample.bill_details !! "Committee"
    = Some (PStr (str "Committee on Appropriations and Finance")) /\
  plain_spaces (str "Committee on Appropriations and Finance").
Proof.
  split; [by_evaluation|].
  edestruct (committee_single_spaced Sample.parse_date
               (text_only Sample.bill_pdf)
               (str "Committee on Appropriations and Finance"))
    with (details := Sample.bill_details) as (_ & Hplain & _).
  - by_evaluation.
  - by_evaluation.
  - exact Hplain.
Defined.

(** ** The resolution extractor *)

Section ResolutionExtractor.
Context {datetime : Type}.
Variable parse_date : pystr -> result datetime.

(** X5.  With four date-times or more in the text the resolution
    extractor reads the introduction, presentation and adoption dates from
    the second, third and fourth; the first date-time is not read. *)
Theorem resolution_details_positions (text x0 x1 x2 x3 : pystr)
    (rest : list pystr) (d1 d2 d3 : datetime) :
  findall date_time_re text = x0 :: x1 :: x2 :: x3 :: rest ->
  parse_date x1 = Ok d1 -> parse_date x2 = Ok d2 -> parse_date x3 = Ok d3 ->
  exists details,
    resolution_details_of_text parse_date text = Ok details /\
    details !! "IntroducedDate" = Some (PDate d1) /\
    details !! "PresentationDate" = Some (PDate d2) /\
    details !! "AdoptedDate" = Some (PDate d3).
Proof.
  intros Hx H1 H2 H3.
  rewrite (resolution_details_four parse_date text _ _ _ _ _ _ _ _
             Hx H1 H2 H3).
  eexists. split; [reflexivity|].
  split; [|split]; reflexivity.
Qed.

(** A dictionary returned for a text with a date-time has the
    presentation date set. *)
Lemma resolution_details_presented (text : pystr)
    (d : gmap string (pyval datetime)) :
  resolution_details_of_text parse_date text = Ok d ->
  findall date_time_re text <> [] ->
  exists v, d !! "PresentationDate" = Some (PDate v).
Proof.
  unfold resolution_details_of_text.
  destruct (findall date_time_re text) as [|x0 [|x1 l]]; [done| |].
  { intros H. apply bind_Ok_inv in H as (x & Hx & _). discriminate. }
  intros H _.
  apply bind_Ok_inv in H as (x & _ & H).
  apply bind_Ok_inv in H as (dt & _ & H).
  apply bind_Ok_inv in H as (m & Hm & H).
  change (1 <? length (x0 :: x1 :: l)) with true in Hm. cbv iota in Hm.
  apply bind_Ok_inv in Hm as (x2 & _ & Hm).
  apply bind_Ok_inv in Hm as (dt2 & _ & Hm). injection Hm as <-.
  destruct (2 <? length (x0 :: x1 :: l)).
  - apply bind_Ok_inv in H as (x3 & _ & H).
    apply bind_Ok_inv in H as (dt3 & _ & H). injection H as <-.
    exists dt2. by rewrite lookup_insert_ne, lookup_insert_eq.
  - injection H as <-. exists dt2. by rewrite lookup_insert_eq.
Qed.

(** X7.  On a dictionary the resolution extractor returns, the actions of
    a resolution go through only when the text holds no date-time, and
    then they add nothing: the extractor and the action code never give an
    "Introduced", "Presented" or "Adopted" action together. *)
Theorem resolution_actions_of_own_details (text : pystr)
    (d : gmap string (pyval datetime)) (b b' : Bill datetime) :
  resolution_details_of_text parse_date text = Ok d ->
  resolution_actions b d = Ok b' ->
  findall date_time_re text = [] /\ b' = b.
Proof.
  intros Hd Hb.
  destruct (findall date_time_re text) as [|x0 l] eqn:Hx.
  - split; [reflexivity|].
    rewrite (resolution_details_no_match parse_date text Hx) in Hd.
    injection Hd as <-. by injection Hb as <-.
  - exfalso.
    destruct (resolution_details_presented text d Hd) as [v Hv];
      [by rewrite Hx|].
    destruct (resolution_details_keys parse_date text d Hd)
      as (Hr & [vi Hi] & _).
    unfold resolution_actions, dict_get in Hb.
    rewrite Hi, Hv, Hr in Hb. discriminate.
Qed.

End ResolutionExtractor.

Lemma resolution_actions_of_own_details_witness :
  findall date_time_re (text_only Sample.pdf0) = [] /\
  resolution_actions (new_Bill (str "12-37") (str "37th") [] [] [])
    Sample.no_resolution_details
  = Ok (new_Bill (str "12-37") (str "37th") [] [] []).
Proof.
  edestruct (resolution_actions_of_own_details Sample.parse_date
               (text_only Sample.pdf0) Sample.no_resolution_details
               (new_Bill (str "12-37") (str "37th") [] [] []))
    as [Hnone Hsame].
  - by_evaluation.
  - vm_compute. reflexivity.
  - split; [exact Hnone|]. vm_compute. reflexivity.
Defined.

Lemma resolution_details_positions_witness :
  exists details,
    resolution_details_of_text Sample.parse_date (text_only Sample.pdf4)
      = Ok details /\
    details !! "IntroducedDate"
      = Some (PDate (str "1/3/2023" ++ Sample.nl ++ str "9:05 a.m.")) /\
    details !! "PresentationDate" = Some (PDate (str "2/14/2023 10:00 AM")) /\
    details !! "AdoptedDate" = Some (PDate (str "3/1/2023 4:30 PM")).
Proof.
  eapply (resolution_details_positions Sample.parse_date
            (text_only Sample.pdf4)); vm_compute; reflexivity.
Defined.

(** ** The result tail *)

Lemma unpack2_Ok {A} (parts : list A) (a b : A) :
  unpack2 parts = Ok (a, b) -> parts = [a; b].
Proof.
  destruct parts as [|x [|y [|z l]]]; try discriminate.
  by intros [= <- <-].
Qed.

(** The label and the date of a result tail are words: they are not
    empty. *)
Lemma result_tail_values {datetime} (sponsors sponsors' : list pystr)
    (result result_date : pyval datetime) :
  result_tail sponsors = Ok (sponsors', result, result_date) ->
  exists init last_entry,
    sponsors = init ++ [last_entry] /\
    (isin (str "-") last_entry = false /\
     result = PNone /\ result_date = PNone /\ sponsors' = sponsors \/
     isin (str "-") last_entry = true /\
     exists label date,
       result = PStr label /\ result_date = PStr date /\
       label <> [] /\ date <> []).
Proof.
  destruct sponsors as [|last_entry init _] using rev_ind.
  { by rewrite result_tail_nil. }
  intros H. exists init, last_entry. split; [reflexivity|].
  destruct (isin (str "-") last_entry) eqn:Hdash.
  - right. split; [reflexivity|].
    rewrite result_tail_dash in H by done.
    apply bind_Ok_inv in H as (halves & _ & H).
    apply bind_Ok_inv in H as ([label date] & Htokens & H).
    injection H as _ <- <-.
    apply unpack2_Ok in Htokens.
    pose proof (split_ws_tokens (snd halves)) as Hall.
    rewrite Htokens in Hall.
    apply Forall_cons in Hall as [[Hl _] Hall].
    apply Forall_cons in Hall as [[Hd _] _].
    exists label, date. by repeat split.
  - left. rewrite result_tail_no_dash in H by done.
    injection H as <- <- <-. by repeat split.
Qed.

(** X6.  The test [if result and result_date] before the result action is
    true exactly when the last sponsor entry holds a [-]: a result tail
    that is read always gives an action. *)
Theorem result_guard_is_dash_test {datetime} (sponsors sponsors' : list pystr)
    (result result_date : pyval datetime) :
  result_tail sponsors = Ok (sponsors', result, result_date) ->
  exists init last_entry,
    sponsors = init ++ [last_entry] /\
    truthy result && truthy result_date = isin (str "-") last_entry.
Proof.
  intros H.
  apply result_tail_values in H
    as (init & last_entry & -> & [(Hdash & -> & -> & _)
                                 |(Hdash & label & date & -> & -> & Hl & Hd)]).
  - exists init, last_entry. by rewrite Hdash.
  - exists init, last_entry. rewrite Hdash.
    destruct label; [done|]. by destruct date.
Qed.

Lemma result_guard_is_dash_test_witness :
  exists init last_entry,
    [str "Jane Roe"; Sample.adopted_entry] = init ++ [last_entry] /\
    truthy (PStr (datetime := pystr) (str "ADOPTED"))
    && truthy (PStr (datetime := pystr) (str "01/02/20"))
    = isin (str "-") last_entry.
Proof.
  apply (result_guard_is_dash_test (datetime := pystr)
           [str "Jane Roe"; Sample.adopted_entry]
           [str "Jane Roe"; str "J. Doe "]).
  vm_compute. reflexivity.
Defined.

(** ** What a record keeps *)

Lemma getitem_0_elem {A} (l : list A) (a : A) :
  getitem l 0 = Ok a -> exists l', l = a :: l'.
Proof. destruct l as [|x l]; [discriminate|]. intros [= <-]. eauto. Qed.

(** The first word of a text is its own identifier: stripping it and
    removing a prefix that holds a space change nothing. *)
Lemma first_token (prefix s part : pystr) :
  forallb nonspace prefix = false ->
  getitem (split_ws s) 0 = Ok part ->
  part <> [] /\ forallb nonspace part = true /\
  strip part = part /\ removeprefix prefix (strip part) = part.
Proof.
  intros Hp Hpart. apply getitem_0_elem in Hpart as [l Hl].
  pose proof (split_ws_tokens s) as Hall. rewrite Hl in Hall.
  apply Forall_cons in Hall as [[Hne Hns] _].
  rewrite (strip_token part Hns), (removeprefix_token _ _ Hp Hns). done.
Qed.

Section Header.
Context {datetime : Type}.
Variable html : pystr -> pystr -> result dom.
Variable py_title : pystr -> pystr.

Lemma header_bill_head (session bill root_url : pystr) xml name_parts
    bill_link (bill_obj : Bill datetime) :
  bill_head html session bill root_url
    = Ok (xml, name_parts, bill_link, bill_obj) ->
  exists part,
    getitem name_parts 0 = Ok part /\
    header bill_obj =
      (removeprefix (str "Bill No. ") (strip part), session,
       str "unicameral", str "bill",
       [MkLink root_url (Some (str "Bill Index"));
        MkLink bill_link (Some (str "Bill Introduced"))]) /\
    title bill_obj = str "See Introduced Link".
Proof.
  unfold bill_head. intros H.
  apply bind_Ok_inv in H as (xml' & _ & H).
  apply bind_Ok_inv in H as (strong & _ & H).
  apply bind_Ok_inv in H as (line & _ & H).
  apply bind_Ok_inv in H as (part & Hpart & H).
  apply bind_Ok_inv in H as (link' & _ & H).
  injection H as <- <- <- <-. by exists part.
Qed.

(** X8.  The record [_process_bill] builds before it tests for a
    withdrawal is a bill of the unicameral chamber and of the session
    asked for, with the title [See Introduced Link] and no action,
    sponsorship or document yet; its identifier is the first word of the
    identifier line after the prefix [Bill No. ], a word without
    whitespace, which the second [strip] and [removeprefix] leave as it
    is; its sources are the index page and the introduced link, in this
    order. *)
Theorem bill_record_before_branch (session bill root_url : pystr)
    (xml : dom) (name_parts : list pystr) (bill_link : pystr)
    (bill_obj : Bill datetime) :
  bill_head html session bill root_url
    = Ok (xml, name_parts, bill_link, bill_obj) ->
  exists line part,
    getitem (strong_text xml) 0 = Ok (Some line) /\
    name_parts = split_ws (removeprefix (str "Bill No. ") (strip line)) /\
    getitem name_parts 0 = Ok part /\
    getitem (a_href xml) 0 = Ok bill_link /\
    part <> [] /\ forallb nonspace part = true /\
    header bill_obj =
      (part, session, str "unicameral", str "bill",
       [MkLink root_url (Some (str "Bill Index"));
        MkLink bill_link (Some (str "Bill Introduced"))]) /\
    title bill_obj = str "See Introduced Link" /\
    actions bill_obj = [] /\ sponsorships bill_obj = [] /\
    documents bill_obj = [].
Proof.
  intros Hhead.
  destruct (bill_head_fields html _ _ _ _ _ _ _ Hhead)
    as (line & part & _ & Hline & Hparts & Hpart & Hlink & _ & _ & Ha & Hs
        & Hd).
  destruct (header_bill_head _ _ _ _ _ _ _ Hhead)
    as (part' & Hpart' & Hheader & Htitle).
  rewrite Hpart in Hpart'. injection Hpart' as <-.
  rewrite Hparts in Hpart.
  destruct (first_token (str "Bill No. ") _ _ eq_refl Hpart)
    as (Hne & Hns & _ & Hid).
  rewrite Hid in Hheader. rewrite <- Hparts in Hpart.
  exists line, part. by repeat split.
Qed.

(** X9.  The record [_process_resolution] builds before it reads the
    result tail is a resolution of the unicameral chamber and of the
    session asked for; its identifier is the first word of the text of the
    first link after the prefix [Res. No. ], a word without whitespace;
    its sources are the index page and the introduced link; its title is
    the title-cased group of the description pattern. *)
Theorem resolution_record_before_tail (session bill root_url : pystr)
    (bill_link : pystr) (bill_obj : Bill datetime) (sponsors : list pystr) :
  resolution_head html py_title session bill root_url
    = Ok (bill_link, bill_obj, sponsors) ->
  exists xml text part m description,
    html bill root_url = Ok xml /\
    getitem (a_text xml) 0 = Ok (Some text) /\
    getitem (split_ws (removeprefix (str "Res. No. ") text)) 0 = Ok part /\
    getitem (a_href xml) 0 = Ok bill_link /\
    search res_desc_match_re bill = Some m /\
    group1 m = Some description /\
    part <> [] /\ forallb nonspace part = true /\
    header bill_obj =
      (part, session, str "unicameral", str "resolution",
       [MkLink root_url (Some (str "Bill Index"));
        MkLink bill_link (Some (str "Bill Introduced"))]) /\
    title bill_obj = py_title description.
Proof.
  unfold resolution_head. intros H.
  apply bind_Ok_inv in H as (xml & Hxml & H).
  apply bind_Ok_inv in H as (first_a & Ha & H).
  apply bind_Ok_inv in H as (text & Htext & H).
  destruct first_a as [text'|]; [|discriminate]. injection Htext as ->.
  apply bind_Ok_inv in H as (part & Hpart & H).
  apply bind_Ok_inv in H as (link & Hlink & H).
  apply bind_Ok_inv in H as (m & Hm & H).
  destruct (search res_desc_match_re bill) as [m'|] eqn:Hsearch;
    [|discriminate]. injection Hm as ->.
  apply bind_Ok_inv in H as (description & Hd & H).
  destruct (group1 m) as [description'|] eqn:Hgroup; [|discriminate].
  injection Hd as ->.
  apply bind_Ok_inv in H as (sps & _ & H).
  injection H as <- <- _.
  destruct (first_token (str "Res. No. ") _ _ eq_refl Hpart)
    as (Hne & Hns & Hstrip & _).
  exists xml, text, part, m, description.
  do 4 (split; [assumption|]). split; [reflexivity|].
  do 3 (split; [assumption|]).
  split; [|reflexivity]. unfold header. simpl. by rewrite Hstrip.
Qed.

End Header.

Lemma bill_record_before_branch_witness :
  exists xml name_parts bill_link (bill_obj : Bill pystr),
    bill_head Sample.html (str "37th") Sample.bill_fragment Sample.bills_url
      = Ok (xml, name_parts, bill_link, bill_obj) /\
    header bill_obj =
      (str "163-37", str "37th", str "unicameral", str "bill",
       [MkLink Sample.bills_url (Some (str "Bill Index"));
        MkLink bill_link (Some (str "Bill Introduced"))]).
Proof.
  eexists _, _, _, _. split; [vm_compute; reflexivity|].
  edestruct (bill_record_before_branch (datetime := pystr) Sample.html
               (str "37th") Sample.bill_fragment Sample.bills_url)
    as (line & part & _ & _ & Hpart & _ & _ & _ & Hheader & _).
  - vm_compute. reflexivity.
  - vm_compute in Hpart. injection Hpart as <-. exact Hheader.
Defined.

Lemma resolution_record_before_tail_witness :
  exists bill_link (bill_obj : Bill pystr) sponsors,
    resolution_head Sample.html Sample.py_title (str "37th")
      Sample.res_fragment Sample.resolutions_url
      = Ok (bill_link, bill_obj, sponsors) /\
    header bill_obj =
      (str "12-37", str "37th", str "unicameral", str "resolution",
       [MkLink Sample.resolutions_url (Some (str "Bill Index"));
        MkLink bill_link (Some (str "Bill Introduced"))]).
Proof.
  eexists _, _, _. split; [vm_compute; reflexivity|].
  edestruct (resolution_record_before_tail (datetime := pystr) Sample.html
               Sample.py_title (str "37th") Sample.res_fragment
               Sample.resolutions_url)
    as (xml & text & part & m & description & Hxml & Htext & Hpart & _ & _
        & _ & _ & _ & Hheader & _).
  - vm_compute. reflexivity.
  - vm_compute in Hxml. injection Hxml as <-.
    vm_compute in Htext. injection Htext as <-.
    vm_compute in Hpart. injection Hpart as <-. exact Hheader.
Defined.

(** ** The withdrawal test *)

Section WithdrawalTest.
Context {datetime : Type}.
Variable html : pystr -> pystr -> result dom.

(** X11.  The withdrawal test reads the words of the identifier line
    joined with nothing between them: it is the search of [WITHDRAWN] in
    the line with its prefix removed and all its whitespace dropped, so the
    letters may stand in several words. *)
Theorem withdrawal_test_ignores_whitespace (session bill root_url : pystr)
    (xml : dom) (name_parts : list pystr) (bill_link : pystr)
    (bill_obj : Bill datetime) :
  bill_head html session bill root_url
    = Ok (xml, name_parts, bill_link, bill_obj) ->
  exists line,
    getitem (strong_text xml) 0 = Ok (Some line) /\
    isin (str "WITHDRAWN") (join [] name_parts) =
    isin (str "WITHDRAWN")
      (List.filter nonspace (removeprefix (str "Bill No. ") (strip line))).
Proof.
  intros Hhead.
  destruct (bill_head_fields html _ _ _ _ _ _ _ Hhead)
    as (line & part & _ & Hline & -> & _).
  exists line. split; [exact Hline|]. by rewrite join_split_ws.
Qed.

End WithdrawalTest.

Lemma withdrawal_test_ignores_whitespace_witness :
  let html (bill root_url : pystr) : result dom :=
    Ok (MkDom [Some (str "Bill No. 160-37 (LS) - WITH DRAWN")] [None]
          [root_url ++ str "Bills/160-37.pdf"] []) in
  exists xml name_parts bill_link (bill_obj : Bill pystr),
    bill_head html (str "37th") Sample.withdrawn_fragment Sample.bills_url
      = Ok (xml, name_parts, bill_link, bill_obj) /\
    isin (str "WITHDRAWN") (join [] name_parts) = true.
Proof.
  intros html. eexists _, _, _, _. split; [vm_compute; reflexivity|].
  edestruct (withdrawal_test_ignores_whitespace (datetime := pystr) html
               (str "37th") Sample.withdrawn_fragment Sample.bills_url)
    as (line & Hline & Htest).
  - vm_compute. reflexivity.
  - rewrite Htest. vm_compute in Hline. injection Hline as <-.
    vm_compute. reflexivity.
Defined.

(** ** What the boundary patterns find *)

(** X13.  The bill pattern finds again the fragments of a listing made of
    them: fragments that it matches in full, each applied at its start
    alone, joined by a separator without [<], are exactly what [findall]
    gives on the listing, in the same order. *)
Theorem bill_fragments_round_trip (fragments : list pystr) (sep : pystr) :
  Forall (fun f => match_at bill_match_re true f
                   = Some (MkMatch f [] (Some f))) fragments ->
  Forall (fun c => c <> 60%N) sep ->
  findall bill_match_re (join sep fragments) = fragments.
Proof.
  intros Hfs Hsep.
  change bill_match_re with (bracket (str "<p>") (str "<br>")) in *.
  apply findall_join; [by vm_compute|exact br_nonempty| |exact Hfs].
  by apply no_angle_no_opener.
Qed.

Lemma bill_fragments_round_trip_witness :
  findall bill_match_re
    (join Sample.nl [Sample.bill_fragment; Sample.withdrawn_fragment])
  = [Sample.bill_fragment; Sample.withdrawn_fragment].
Proof.
  apply (bill_fragments_round_trip
           [Sample.bill_fragment; Sample.withdrawn_fragment] Sample.nl).
  - repeat constructor; vm_compute; reflexivity.
  - repeat constructor; discriminate.
Defined.

Lemma startswith_refl (e : pystr) : startswith e e = true.
Proof. rewrite <- (app_nil_r e) at 2. apply startswith_app. Qed.

(** The first occurrence stays the first in the text cut after it. *)
Lemma find_take (e t : pystr) :
  forall i, find e t = Some i -> find e (take (i + length e) t) = Some i.
Proof.
  induction t as [|c t IH]; intros i; cbn [find].
  - destruct (startswith e []) eqn:E; [|discriminate].
    intros [= <-]. rewrite take_nil. cbn [find]. by rewrite E.
  - destruct (startswith e (c :: t)) eqn:E.
    + intros [= <-]. apply startswith_inv in E. rewrite E at 1.
      rewrite Nat.add_0_l, take_app_length.
      destruct e as [|x e]; [reflexivity|].
      cbn [find]. by rewrite startswith_refl.
    + destruct (find e t) as [j|] eqn:Hj; [|discriminate]. intros [= <-].
      change (S j + length e) with (S (j + length e)).
      cbn [take find]. rewrite (IH j eq_refl). simpl.
      destruct (startswith e (c :: take (j + length e) t)) eqn:E'; [|done].
      rewrite <- (take_drop (j + length e) t) in E.
      change (c :: take (j + length e) t ++ drop (j + length e) t)
        with ((c :: take (j + length e) t) ++ drop (j + length e) t) in E.
      rewrite (startswith_app_mono _ _ _ E') in E. discriminate.
Qed.

Lemma match_at_bracketed (q e : pystr) (b : bool) (s : pystr)
    (m : rmatched) :
  q <> [] -> e <> [] ->
  match_at (bracket q e) b s = Some m ->
  bracketed q e (m_text m) /\ m_group m = Some (m_text m) /\
  s = m_text m ++ m_rest m.
Proof.
  intros Hq He. rewrite match_at_bracket by done.
  destruct (startswith q s) eqn:Hs; [|discriminate].
  destruct (find e (drop (length q) s)) as [i|] eqn:Hi; [|discriminate].
  cbv zeta. intros [= <-]. cbn [m_text m_rest m_group].
  split; [|split; [reflexivity|by rewrite take_drop]].
  apply startswith_inv in Hs.
  set (t := drop (length q) s) in *.
  pose proof (find_take e t i Hi) as Hfirst.
  destruct (find_Some e t i Hi) as [He' Hlen].
  assert (Hcut : take (i + length e) t = take i t ++ e).
  { rewrite <- (take_drop i t) at 1.
    rewrite take_app_add'; [|rewrite length_take; lia].
    apply startswith_inv in He'. rewrite He' at 1.
    by rewrite take_app_length. }
  exists (take i t). rewrite <- Hcut. split.
  - rewrite Hs at 1. rewrite <- Nat.add_assoc. by rewrite take_app_add'.
  - rewrite length_take. replace (i `min` length t) with i by lia.
    exact Hfirst.
Qed.

Lemma findall_go_bracketed (q e : pystr) :
  q <> [] -> e <> [] ->
  forall n b s, Forall (bracketed q e) (findall_go n (bracket q e) b s).
Proof.
  intros Hq He. induction n as [|n IH]; intros b s; [constructor|].
  cbn [findall_go].
  destruct (match_at (bracket q e) b s) as [m|] eqn:Hm.
  - destruct (match_at_bracketed q e b s m Hq He Hm) as (Hb & -> & _).
    constructor; [exact Hb|].
    destruct (m_text m), s; try constructor; apply IH.
  - destruct s; [constructor|apply IH].
Qed.

(** X14.  Every fragment the resolution pattern finds in a text, and every
    fragment the bill pattern finds, starts with the opening tag of its
    kind and ends with [<br>], and holds no [<br>] before that one. *)
Theorem fragments_are_bracketed (doc : pystr) :
  Forall (bracketed p_align_left (str "<br>")) (findall res_match_re doc) /\
  Forall (bracketed (str "<p>") (str "<br>")) (findall bill_match_re doc).
Proof.
  split.
  - apply findall_go_bracketed;
      [exact p_align_left_nonempty|exact br_nonempty].
  - apply findall_go_bracketed; [by vm_compute|exact br_nonempty].
Qed.

(** ** The details of a bill and its actions *)

Section BillActionsOfDetails.
Context {datetime : Type}.
Variable parse_date : pystr -> result datetime.

(** X20.  On every dictionary the bill extractor returns, the action code
    of a bill goes through, with no [KeyError], and appends exactly the
    actions the details call for: "Introduced" when the introduction date
    is set, "Referred To Committee" when the referral date is set, with the
    committee as organization when one was found; nothing else of the
    record changes. *)
Theorem bill_actions_of_own_details (text : pystr)
    (details : gmap string (pyval datetime)) (b : Bill datetime) :
  bill_details_of_text parse_date text = Ok details ->
  exists introduced referred committee b',
    details !! "IntroducedDate" = Some introduced /\
    details !! "ReferredDate" = Some referred /\
    details !! "Committee" = Some committee /\
    bill_actions b details = Ok b' /\
    actions b' = actions b ++ expected_bill_actions introduced referred
                                committee /\
    same_but_actions b b'.
Proof.
  intros Hd.
  destruct (bill_details_shaped parse_date _ _ Hd) as (vi & vr & vc & Hshape).
  destruct (bill_actions_shaped b details vi vr vc Hshape)
    as (b' & Hb & Ha & Hsame).
  destruct Hshape as (Hi & Hr & Hc & _).
  exists vi, vr, vc, b'. do 5 (split; [assumption|]). exact Hsame.
Qed.

End BillActionsOfDetails.

Lemma bill_actions_of_own_details_witness :
  exists b',
    bill_actions (new_Bill (str "163-37") (str "37th") [] [] [])
      Sample.bill_details = Ok b' /\
    actions b' =
      [MkAction (str "Introduced")
         (PDate (str "1/3/2023" ++ Sample.nl ++ str "9:05 a.m.")) PNone;
       MkAction (str "Referred To Committee") (PDate (str "1/10/2023"))
         (PStr (str "Committee on Appropriations and Finance"))].
Proof.
  edestruct (bill_actions_of_own_details Sample.parse_date
               (text_only Sample.bill_pdf) Sample.bill_details
               (new_Bill (str "163-37") (str "37th") [] [] []))
    as (vi & vr & vc & b' & Hi & Hr & Hc & Hb & Ha & _).
  - by_evaluation.
  - exists b'. split; [exact Hb|]. rewrite Ha.
    vm_compute in Hi, Hr, Hc.
    injection Hi as <-. injection Hr as <-. injection Hc as <-.
    vm_compute. reflexivity.
Defined.

(** ** Stripping *)

Lemma lstrip_by_idem (f : N -> bool) (s : pystr) :
  lstrip_by f (lstrip_by f s) = lstrip_by f s.
Proof.
  induction s as [|c s IH]; [reflexivity|]. simpl.
  destruct (f c) eqn:E; [exact IH|]. simpl. by rewrite E.
Qed.

(** What is left of a text that ends in a character that stays ends in
    this character. *)
Lemma lstrip_by_snoc (f : N -> bool) (c : N) (w : pystr) :
  f c = false -> exists w', lstrip_by f (w ++ [c]) = w' ++ [c].
Proof.
  intros Hc. induction w as [|x w IH]; simpl.
  - rewrite Hc. by exists [].
  - destruct (f x); [exact IH|]. by exists (x :: w).
Qed.

Lemma lstrip_by_length (f : N -> bool) (u : pystr) :
  length (lstrip_by f u) <= length u.
Proof.
  induction u as [|y u IH]; simpl; [lia|]. destruct (f y); simpl; lia.
Qed.

(** Stripping the right end of a text whose left end is stripped leaves
    the left end stripped. *)
Lemma lstrip_by_rstrip_by (f : N -> bool) (v : pystr) :
  lstrip_by f v = v -> lstrip_by f (rstrip_by f v) = rstrip_by f v.
Proof.
  unfold rstrip_by. destruct v as [|c v]; [reflexivity|].
  simpl. destruct (f c) eqn:Hc.
  - intros Hv. apply (f_equal length) in Hv. simpl in Hv.
    pose proof (lstrip_by_length f v). lia.
  - intros _. destruct (lstrip_by_snoc f c (rev v) Hc) as [w' ->].
    rewrite rev_app_distr. simpl. by rewrite Hc.
Qed.

Lemma strip_by_idem (f : N -> bool) (s : pystr) :
  strip_by f (strip_by f s) = strip_by f s.
Proof.
  unfold strip_by.
  rewrite lstrip_by_rstrip_by by apply lstrip_by_idem.
  unfold rstrip_by. by rewrite rev_involutive, lstrip_by_idem.
Qed.

Lemma sponsor_names_stripped (block : pystr) :
  Forall (fun name => strip name = name) (sponsor_names block).
Proof.
  unfold sponsor_names. apply Forall_forall. intros name Hin.
  apply list_elem_of_In, in_map_iff in Hin as (s & <- & _).
  apply strip_by_idem.
Qed.

(** X15.  The sponsor entries both parsers read from a fragment have no
    whitespace at either end, and there is one entry for every line of the
    sponsor block that is not blank. *)
Theorem sponsor_entries_stripped (bill : pystr) (sponsors : list pystr) :
  sponsors_of bill = Ok sponsors ->
  Forall (fun name => strip name = name) sponsors /\
  exists block,
    sponsor_block bill = Ok block /\
    length sponsors =
    length (List.filter
              (fun s => match strip s with [] => false | _ => true end)
              (split [10%N] block)).
Proof.
  rewrite sponsors_of_block. intros H.
  apply bind_Ok_inv in H as (block & Hblock & H). injection H as <-.
  split; [apply sponsor_names_stripped|].
  exists block. split; [exact Hblock|].
  unfold sponsor_names. by rewrite length_map.
Qed.

Lemma sponsor_entries_stripped_witness :
  sponsors_of Sample.bill_fragment = Ok [str "J. Doe"; str "Jane Roe"] /\
  Forall (fun name => strip name = name) [str "J. Doe"; str "Jane Roe"].
Proof.
  split; [vm_compute; reflexivity|].
  edestruct (sponsor_entries_stripped Sample.bill_fragment
               [str "J. Doe"; str "Jane Roe"]) as [Hall _].
  - vm_compute. reflexivity.
  - exact Hall.
Defined.

(** ** The sponsor block and the descriptions *)

Section GreedyMatch.
Context {R : Type}.

(** A greedy run of any characters stops at the last place where what
    follows starts with the closing text. *)
Lemma rep_greedy_rfind (e : pystr) (F : pystr -> R)
    (k : bool -> pystr -> option R) :
  (forall b t, k b t = if startswith e t then Some (F t) else None) ->
  forall t b,
  rep true any_char 0 None b t k =
  match rfind e t with
  | Some i => Some (F (drop i t))
  | None => None
  end.
Proof.
  intros Hk. induction t as [|c t IH]; intros b.
  - simpl. rewrite Hk. by destruct (startswith e []).
  - cbn [rep rfind any_char pred fmap option_fmap option_map].
    rewrite IH. destruct (rfind e t) as [j|]; [reflexivity|].
    cbn [orelse option_map]. rewrite Hk.
    by destruct (startswith e (c :: t)).
Qed.

(** A greedy run of the characters of a class takes all of them up to the
    first character outside the class. *)
Lemma rep_greedy_class (p : N -> bool) (c : N) (rest : pystr) (x : R)
    (k : bool -> pystr -> option R) :
  p c = false -> (forall b, k b (c :: rest) = Some x) ->
  forall d lo b, Forall (fun a => p a = true) d -> lo <= length d ->
  rep true p lo None b (d ++ c :: rest) k = Some x.
Proof.
  intros Hc Hk. induction d as [|a d IH]; intros lo b Hd Hlo.
  - destruct lo; [|simpl in Hlo; lia]. simpl. rewrite Hc. apply Hk.
  - apply Forall_cons in Hd as [Ha Hd].
    change ((a :: d) ++ c :: rest) with (a :: d ++ c :: rest).
    cbn [rep fmap option_fmap option_map]. rewrite Ha.
    rewrite IH; [reflexivity|exact Hd|simpl in Hlo; lia].
Qed.

End GreedyMatch.

Lemma rfind_Some (e t : pystr) :
  forall i, rfind e t = Some i -> i + length e <= length t.
Proof.
  induction t as [|c t IH]; intros i; cbn [rfind].
  - destruct (startswith e []) eqn:E; [|discriminate].
    intros [= <-]. apply startswith_length in E. simpl in *. lia.
  - destruct (rfind e t) as [j|].
    + intros [= <-]. specialize (IH j eq_refl). simpl. lia.
    + simpl. destruct (startswith e (c :: t)) eqn:E; [|discriminate].
      intros [= <-]. apply startswith_length in E. simpl in *. lia.
Qed.

Lemma rfind_absent (e t : pystr) : isin e t = false -> rfind e t = None.
Proof.
  induction t as [|c t IH]; cbn [isin rfind].
  - rewrite orb_false_r. by intros ->.
  - intros H. apply orb_false_iff in H as [-> H]. by rewrite IH.
Qed.

(** The last occurrence, when none starts later. *)
Lemma rfind_last (e block post : pystr) :
  e <> [] -> isin e (drop 1 (e ++ post)) = false ->
  rfind e (block ++ e ++ post) = Some (length block).
Proof.
  intros He Hpost. induction block as [|c block IH].
  - destruct e as [|x e]; [done|].
    change (drop 1 ((x :: e) ++ post)) with (e ++ post) in Hpost.
    change ([] ++ (x :: e) ++ post) with (x :: e ++ post).
    cbn [rfind]. rewrite (rfind_absent _ _ Hpost).
    cbn [fmap option_fmap option_map].
    change (x :: e ++ post) with ((x :: e) ++ post).
    by rewrite startswith_app.
  - change ((c :: block) ++ e ++ post) with (c :: block ++ e ++ post).
    cbn [rfind]. by rewrite IH.
Qed.

(** What a pattern with a greedy group matches at a position: the opening
    text, then everything up to and with the last closing text; the group
    is what stands between them. *)
Lemma match_at_enclosed (q e : pystr) (b : bool) (s : pystr) :
  q <> [] -> e <> [] ->
  match_at (enclosed q e) b s =
  if startswith q s
  then match rfind e (drop (length q) s) with
       | Some i =>
           let n := length q + i + length e in
           Some (MkMatch (take n s) (drop n s)
                   (Some (take i (drop (length q) s))))
       | None => None
       end
  else None.
Proof.
  intros Hq He. unfold match_at, enclosed. cbn [rmatch].
  rewrite rmatch_lit by done.
  destruct (startswith q s) eqn:Hs; [|reflexivity].
  set (s1 := drop (length q) s).
  rewrite (rep_greedy_rfind e
    (fun t => let n := length s - length (drop (length e) t) in
              MkMatch (take n s) (drop (length e) t)
                (Some (take (length s1 - length t) s1)))).
  2: { intros b' t. rewrite rmatch_lit by done. reflexivity. }
  destruct (rfind e s1) as [i|] eqn:Hi; [|reflexivity].
  apply rfind_Some in Hi. unfold s1 in *. rewrite length_drop in Hi.
  apply startswith_length in Hs.
  cbv zeta. rewrite !drop_drop, !length_drop.
  replace (length s - (length s - (length q + (i + length e))))
    with (length q + i + length e) by lia.
  replace (length s - length q - (length s - (length q + i))) with i by lia.
  by rewrite (Nat.add_assoc (length q)).
Qed.

(** No occurrence starts before the first one. *)
Lemma find_before (e t : pystr) :
  forall i j, find e t = Some i -> j < i -> startswith e (drop j t) = false.
Proof.
  induction t as [|c t IH]; intros i j; cbn [find].
  - destruct (startswith e []); [|discriminate]. intros [= <-]. lia.
  - destruct (startswith e (c :: t)) eqn:E; [intros [= <-]; lia|].
    destruct (find e t) as [i'|] eqn:Hi; [|discriminate]. intros [= <-] Hj.
    destruct j as [|j]; [exact E|]. simpl. apply (IH i'); [done|lia].
Qed.

Lemma search_go_here (r : regex) (b : bool) (s : pystr) (m : rmatched) :
  match_at r b s = Some m -> search_go r b s = Some m.
Proof. intros H. destruct s; simpl; by rewrite H. Qed.

(** The search passes over the places where the pattern does not match. *)
Lemma search_go_skip (r : regex) (s : pystr) (m : rmatched) :
  (forall b, match_at r b s = Some m) ->
  forall pre b,
  (forall j b', j < length pre -> match_at r b' (drop j (pre ++ s)) = None) ->
  search_go r b (pre ++ s) = Some m.
Proof.
  intros Hm. induction pre as [|c pre IH]; intros b Hpre.
  - by apply search_go_here.
  - change ((c :: pre) ++ s) with (c :: pre ++ s). cbn [search_go].
    pose proof (Hpre 0 b) as H0. rewrite drop_0 in H0.
    change ((c :: pre) ++ s) with (c :: pre ++ s) in H0.
    rewrite H0 by (simpl; lia).
    apply IH. intros j b' Hj. apply (Hpre (S j) b'). simpl. lia.
Qed.

(** X16.  The sponsor block of a fragment starts after the first
    [Sponsor(s) -] and runs up to the last [<p>] of the fragment: a [<p>]
    inside the block does not end it. *)
Theorem sponsor_block_is_greedy (pre block post : pystr) :
  isin (str "Sponsor(s) -") (pre ++ removelast (str "Sponsor(s) -")) = false ->
  isin (str "<p>") (str "p>" ++ post) = false ->
  sponsor_block (pre ++ str "Sponsor(s) -" ++ block ++ str "<p>" ++ post)
  = Ok block.
Proof.
  intros Hpre Hpost. unfold sponsor_block, search.
  change sponsors_match_re with (enclosed (str "Sponsor(s) -") (str "<p>")).
  assert (Hq : str "Sponsor(s) -" <> []) by (by vm_compute).
  assert (He : str "<p>" <> []) by (by vm_compute).
  set (s := str "Sponsor(s) -" ++ block ++ str "<p>" ++ post).
  rewrite (search_go_skip _ s
             (MkMatch (str "Sponsor(s) -" ++ block ++ str "<p>") post
                (Some block))); [reflexivity| |].
  - intros b. rewrite match_at_enclosed by done. unfold s.
    rewrite startswith_app, drop_app_length.
    rewrite rfind_last by done. cbv zeta.
    rewrite take_app_length.
    replace (length (str "Sponsor(s) -") + length block + length (str "<p>"))
      with (length (str "Sponsor(s) -" ++ block ++ str "<p>"))
      by (rewrite !length_app; lia).
    replace (str "Sponsor(s) -" ++ block ++ str "<p>" ++ post)
      with ((str "Sponsor(s) -" ++ block ++ str "<p>") ++ post)
      by (by rewrite <- !app_assoc).
    by rewrite take_app_length, drop_app_length.
  - intros j b' Hj. rewrite match_at_enclosed by done.
    rewrite (find_before (str "Sponsor(s) -") (pre ++ s) (length pre) j);
      [reflexivity| |exact Hj].
    by apply find_first.
Qed.

Lemma sponsor_block_is_greedy_witness :
  sponsor_block
    (str "<p>Bill " ++ str "Sponsor(s) -"
     ++ (str "Jane Roe<p>J. Doe" ++ Sample.nl) ++ str "<p>" ++ str "<br>")
  = Ok (str "Jane Roe<p>J. Doe" ++ Sample.nl).
Proof.
  apply (sponsor_block_is_greedy (str "<p>Bill ")
           (str "Jane Roe<p>J. Doe" ++ Sample.nl) (str "<br>"));
    vm_compute; reflexivity.
Defined.

(** X17.  The description of a resolution is the text that follows the
    left-aligned paragraph tag up to the next [<] or [>]: for a fragment
    that starts with the tag, then a text without [<] and [>] that is not
    empty, then a [<], the description pattern finds that text. *)
Theorem resolution_description (d rest : pystr) :
  d <> [] -> Forall (fun c => not_angle c = true) d ->
  exists m,
    search res_desc_match_re (p_align_left ++ d ++ [60%N] ++ rest) = Some m /\
    group1 m = Some d.
Proof.
  intros Hd Hall. eexists. split.
  - unfold search. apply search_go_here.
    unfold match_at, res_desc_match_re. cbn [rmatch].
    rewrite rmatch_lit by exact p_align_left_nonempty.
    rewrite startswith_app, drop_app_length.
    apply (rep_greedy_class not_angle 60%N rest);
      [reflexivity|reflexivity|exact Hall|].
    destruct d; [done|simpl; lia].
  - unfold group1. cbn [m_group]. f_equal.
    replace (length (d ++ [60%N] ++ rest) - length (60%N :: rest))
      with (length d) by (rewrite !length_app; simpl; lia).
    by rewrite take_app_length.
Qed.

Lemma resolution_description_witness :
  exists m,
    search res_desc_match_re
      (p_align_left ++ str "Relative to a matter." ++ [60%N]
       ++ str "a href=Res/15-37.pdf>Res. No. 15-37 (LS)</a>") = Some m /\
    group1 m = Some (str "Relative to a matter.").
Proof.
  apply (resolution_description (str "Relative to a matter.")).
  - by vm_compute.
  - repeat constructor.
Defined.

(** A pattern that starts with [^] matches only where the text starts. *)
Lemma search_go_anchored (r : regex) (s : pystr) :
  search_go (Cat Bol r) false s = None.
Proof. induction s as [|c s IH]; [reflexivity|exact IH]. Qed.

Lemma search_anchored (r : regex) (s : pystr) :
  search (Cat Bol r) s = match_at (Cat Bol r) true s.
Proof.
  unfold search. destruct s as [|c s]; cbn [search_go];
    destruct (match_at (Cat Bol r) true _); try reflexivity.
  apply search_go_anchored.
Qed.

(** X18.  The description of a bill is looked for at the start of the
    fragment only: the search is one match at the first character.  For a
    fragment that starts with [<p>], the group is the text between this
    tag and the first [<li>]. *)
Theorem bill_description_at_start (bill g rest : pystr) :
  search desc_match_re bill = match_at desc_match_re true bill /\
  (isin (str "<li>") (g ++ removelast (str "<li>")) = false ->
   exists m,
     search desc_match_re (str "<p>" ++ g ++ str "<li>" ++ rest) = Some m /\
     group1 m = Some g).
Proof.
  split.
  - apply search_anchored.
  - intros Hg. eexists. split.
    + unfold search. apply search_go_here.
      unfold match_at, desc_match_re.
      change (str "<p>" ++ g ++ str "<li>" ++ rest)
        with (60%N :: str "p>" ++ g ++ str "<li>" ++ rest).
      cbn [rmatch rep orelse isspace fmap option_fmap option_map].
      change (isspace 60) with false. cbv iota. cbn [orelse].
      change (60%N :: str "p>" ++ g ++ str "<li>" ++ rest)
        with (str "<p>" ++ g ++ str "<li>" ++ rest).
      rewrite rmatch_lit by (by vm_compute).
      rewrite startswith_app, drop_app_length.
      rewrite (rep_lazy_find (str "<li>")
        (fun t =>
           MkMatch
             (take (length (str "<p>" ++ g ++ str "<li>" ++ rest)
                    - length (drop (length (str "<li>")) t))
                (str "<p>" ++ g ++ str "<li>" ++ rest))
             (drop (length (str "<li>")) t)
             (Some (take (length (g ++ str "<li>" ++ rest) - length t)
                      (g ++ str "<li>" ++ rest))))).
      2: { intros b' t. rewrite rmatch_lit by (by vm_compute). reflexivity. }
      rewrite find_first by (done || by vm_compute). reflexivity.
    + unfold group1. cbn [m_group]. f_equal.
      rewrite drop_app_length, !length_app.
      replace (length g + (length (str "<li>") + length rest)
               - (length (str "<li>") + length rest))
        with (length g) by lia.
      by rewrite take_app_length.
Qed.

Lemma bill_description_at_start_witness :
  exists m,
    search desc_match_re
      (str "<p>" ++ str "An act relative to roads." ++ str "<li>"
       ++ str "<a href=x>Status</a>") = Some m /\
    group1 m = Some (str "An act relative to roads.").
Proof.
  edestruct (bill_description_at_start [] (str "An act relative to roads.")
               (str "<a href=x>Status</a>")) as [_ H].
  apply H. vm_compute. reflexivity.
Defined.

(** ** A sponsor block without a name *)

Lemma sponsor_names_blank (block : pystr) :
  Forall (fun line => strip line = []) (split [10%N] block) ->
  sponsor_names block = [].
Proof.
  unfold sponsor_names. intros Hall.
  induction Hall as [|line l Hline _ IH]; [reflexivity|].
  cbn [List.filter]. rewrite Hline. exact IH.
Qed.

Section BlankSponsors.
Context {datetime : Type}.
Variable html : pystr -> pystr -> result dom.
Variable py_title : pystr -> pystr.
Variable get_details : pystr -> result (gmap string (pyval datetime)).

(** X19.  A resolution whose sponsor block has only blank lines is fatal:
    the parser raises [IndexError] at the last sponsor entry, before it
    fetches any details, and yields no record. *)
Theorem blank_sponsor_block_is_fatal (session bill root_url block : pystr)
    (bill_link : pystr) (bill_obj : Bill datetime) (sponsors : list pystr) :
  resolution_head html py_title session bill root_url
    = Ok (bill_link, bill_obj, sponsors) ->
  sponsor_block bill = Ok block ->
  Forall (fun line => strip line = []) (split [10%N] block) ->
  _process_resolution html py_title get_details session bill root_url
    = Raise IndexError.
Proof.
  intros Hhead Hblock Hblank.
  destruct (resolution_head_fields html py_title _ _ _ _ _ _ Hhead)
    as (Hsp & _).
  rewrite sponsors_of_block, Hblock in Hsp. cbn [bind] in Hsp.
  rewrite (sponsor_names_blank block Hblank) in Hsp. injection Hsp as <-.
  rewrite process_resolution_stages, Hhead. reflexivity.
Qed.

End BlankSponsors.

Lemma blank_sponsor_block_is_fatal_witness :
  let fragment : pystr :=
    p_align_left ++ str "Relative to a matter."
    ++ str "<a href=Res/17-37.pdf>Res. No. 17-37 (LS)</a>"
    ++ str " Sponsor(s) - " ++ Sample.nl ++ str "<p><br>" in
  let html (bill root_url : pystr) : result dom :=
    Ok (MkDom [] [Some (str "Res. No. 17-37 (LS)")]
          [root_url ++ str "Res/17-37.pdf"] []) in
  _process_resolution html Sample.py_title
    (_get_resolution_details Sample.parse_date Sample.pdf_text)
    (str "37th") fragment Sample.resolutions_url = Raise IndexError.
Proof.
  intros fragment html.
  eapply (blank_sponsor_block_is_fatal html Sample.py_title
            (_get_resolution_details Sample.parse_date Sample.pdf_text)
            (str "37th") fragment Sample.resolutions_url).
  - vm_compute. reflexivity.
  - vm_compute. reflexivity.
  - repeat constructor.
Defined.
